(** * Near-Earth objects: filters, limiter and record models

    A shallow embedding of [filters.py] and [models.py].  Python values are
    a small tagged union, exceptions are an explicit error result, floats
    are IEEE 754 binary64 values in the [spec_float] representation, a
    Python string is kept as its UTF-8 encoding, the keyword dictionary
    handed to a constructor is a finite map, and the insertion-ordered
    dictionary built from [locals()] is an association list. *)

From Stdlib Require Import ZArith Ascii String List Lia.
From Stdlib Require Import Floats.SpecFloat.
From stdpp Require Import base option list strings gmap.

Local Open Scope string_scope.
Local Open Scope Z_scope.
Local Open Scope list_scope.

(** ** The Python runtime the program relies on *)

Module Py.

(** Exceptions the modelled code can raise. *)
Inductive exn : Type :=
  | KeyError
  | ValueError
  | TypeError
  | AttributeError
  | UnsupportedCriterionError.

(** A computation that either returns a value or raises. *)
Inductive result (A : Type) : Type :=
  | Ok (a : A)
  | Raise (e : exn).
Arguments Ok {A} a.
Arguments Raise {A} e.

#[global] Instance result_ret : MRet result := fun _ a => Ok a.
#[global] Instance result_bind : MBind result := fun _ _ f m =>
  match m with
  | Ok a => f a
  | Raise e => Raise e
  end.

(** *** Floats: binary64 *)

Definition float64 : Type := spec_float.
Definition prec : Z := 53.
Definition emax : Z := 1024.

Definition nan : float64 := S754_nan.
Definition f64_compare : float64 -> float64 -> option comparison := SFcompare.
Definition f64_eqb : float64 -> float64 -> bool := SFeqb.
Definition f64_leb : float64 -> float64 -> bool := SFleb.
Definition f64_zero : float64 := S754_zero false.
Definition f64_one : float64 := binary_round prec emax false 1 0.

Definition is_nan (f : float64) : bool :=
  match f with S754_nan => true | _ => false end.

(** *** Text

    A string is the UTF-8 encoding of a Python [str]. *)

Definition code (c : ascii) : N := N_of_ascii c.

(** The payload of a continuation byte. *)
Definition cont (c : ascii) : option N :=
  let n := code c in
  if ((128 <=? n) && (n <? 192))%N then Some (n - 128)%N else None.

(** The characters of a text: the code point of each and the bytes that
    encode it.  A byte that opens no well-formed sequence stands alone, as
    the replacement character. *)
Fixpoint chars (s : list ascii) : list (N * list ascii) :=
  match s with
  | [] => []
  | c :: s1 =>
      let n := code c in
      if (n <? 128)%N then (n, [c]) :: chars s1
      else if (n <? 192)%N then (65533%N, [c]) :: chars s1
      else if (n <? 224)%N then
        match s1 with
        | c1 :: s2 =>
            match cont c1 with
            | Some x1 => (((n - 192) * 64 + x1)%N, [c; c1]) :: chars s2
            | None => (65533%N, [c]) :: chars s1
            end
        | [] => (65533%N, [c]) :: chars s1
        end
      else if (n <? 240)%N then
        match s1 with
        | c1 :: (c2 :: s3) as s2 =>
            match cont c1, cont c2 with
            | Some x1, Some x2 =>
                ((((n - 224) * 64 + x1) * 64 + x2)%N, [c; c1; c2]) :: chars s3
            | _, _ => (65533%N, [c]) :: chars s1
            end
        | _ => (65533%N, [c]) :: chars s1
        end
      else if (n <? 248)%N then
        match s1 with
        | c1 :: (c2 :: (c3 :: s4) as s3) as s2 =>
            match cont c1, cont c2, cont c3 with
            | Some x1, Some x2, Some x3 =>
                (((((n - 240) * 64 + x1) * 64 + x2) * 64 + x3)%N, [c; c1; c2; c3])
                :: chars s4
            | _, _, _ => (65533%N, [c]) :: chars s1
            end
        | _ => (65533%N, [c]) :: chars s1
        end
      else (65533%N, [c]) :: chars s1
  end.

Definition between (lo hi n : N) : bool := ((lo <=? n) && (n <=? hi))%N.

(** [str.isspace] on one character (Unicode 14). *)
Definition py_isspace (cp : N) : bool :=
  between 9 13 cp || between 28 32 cp
  || existsb (N.eqb cp) [133; 160; 5760; 8232; 8233; 8239; 8287; 12288]%N
  || between 8192 8202 cp.

(** The code points of the digit zero of every decimal script (Unicode 14);
    the digits one to nine follow each. *)
Definition decimal_zeros : list N :=
  [48; 1632; 1776; 1984; 2406; 2534; 2662; 2790; 2918; 3046; 3174; 3302;
   3430; 3558; 3664; 3792; 3872; 4160; 4240; 6112; 6160; 6470; 6608; 6784;
   6800; 6992; 7088; 7232; 7248; 42528; 43216; 43264; 43472; 43504; 43600;
   44016; 65296; 66720; 68912; 69734; 69872; 69942; 70096; 70384; 70736;
   70864; 71248; 71360; 71472; 71904; 72016; 72784; 73040; 73120; 92768;
   92864; 93008; 120782; 120792; 120802; 120812; 120822; 123200; 123632;
   125264; 130032]%N.

(** The decimal value of a character that is a decimal digit. *)
Definition unicode_decimal (cp : N) : option N :=
  match List.find (fun z => between z (z + 9) cp) decimal_zeros with
  | Some z => Some (cp - z)%N
  | None => None
  end.

(** *** [float(str)]

    White space and decimal digits beyond ASCII are first turned into a
    blank and into the ASCII digit; any other character beyond ASCII makes
    the text unreadable.  Then the blanks that C knows (bytes 9 to 13 and
    32) are dropped at both ends, and an optional sign is followed by
    [inf], [infinity] or [nan] (in any case), or by a decimal literal with
    optional fraction and exponent, where one underscore may sit between
    two digits.  The literal is rounded to the nearest binary64, ties to
    even.  Anything else is a [ValueError]. *)

Definition to_ascii (ch : N * list ascii) : ascii :=
  let cp := fst ch in
  if (cp <? 127)%N then ascii_of_N cp
  else if py_isspace cp then " "%char
  else match unicode_decimal cp with
       | Some d => ascii_of_N (48 + d)
       | None => "?"%char
       end.

Definition float_text (s : string) : list ascii :=
  map to_ascii (chars (list_ascii_of_string s)).

Definition c_isspace (c : ascii) : bool :=
  let n := code c in between 9 13 n || N.eqb n 32.

(** [str.isspace] on an ASCII character. *)
Definition is_space (c : ascii) : bool :=
  let n := code c in
  ((9 <=? n) && (n <=? 13) || (28 <=? n) && (n <=? 32))%N.

Definition is_digit (c : ascii) : bool :=
  let n := code c in ((48 <=? n) && (n <=? 57))%N.

Definition digit_val (c : ascii) : Z := Z.of_N (code c) - 48.

Definition lower (c : ascii) : ascii :=
  let n := code c in
  if ((65 <=? n) && (n <=? 90))%N then ascii_of_N (n + 32) else c.

Fixpoint lstrip_by {A : Type} (space : A -> bool) (s : list A) : list A :=
  match s with
  | c :: s' => if space c then lstrip_by space s' else s
  | [] => []
  end.

Definition strip_by {A : Type} (space : A -> bool) (s : list A) : list A :=
  rev (lstrip_by space (rev (lstrip_by space s))).

(** [digit (["_"] digit)*]: the digits read and the text left over. *)
Fixpoint digitpart (s : list ascii) : list ascii * list ascii :=
  match s with
  | c :: s' =>
      if is_digit c then
        match s' with
        | "_"%char :: s'' =>
            match s'' with
            | d :: _ =>
                if is_digit d
                then let '(ds, r) := digitpart s'' in (c :: ds, r)
                else ([c], s')
            | [] => ([c], s')
            end
        | _ => let '(ds, r) := digitpart s' in (c :: ds, r)
        end
      else ([], s)
  | [] => ([], [])
  end.

Definition digits_value (ds : list ascii) : Z :=
  fold_left (fun acc c => 10 * acc + digit_val c) ds 0.

(** [[sign]]: [true] for a minus sign. *)
Definition read_sign (s : list ascii) : bool * list ascii :=
  match s with
  | "-"%char :: s' => (true, s')
  | "+"%char :: s' => (false, s')
  | _ => (false, s)
  end.

(** [m * 10 ^ e10] rounded to binary64. *)
Definition decimal_to_float (sign : bool) (m e10 : Z) : float64 :=
  match m with
  | Zpos p =>
      if 0 <=? e10
      then match m * 10 ^ e10 with
           | Zpos n => binary_round prec emax sign n 0
           | _ => S754_zero sign
           end
      else let '(q, e, l) := SFdiv_core_binary prec emax m 0 (10 ^ (- e10)) 0 in
           binary_round_aux prec emax sign q e l
  | _ => S754_zero sign
  end.

(** [("e" | "E") [sign] digitpart], or nothing. *)
Definition read_exponent (s : list ascii) : option (Z * list ascii) :=
  match s with
  | c :: s' =>
      if ascii_dec (lower c) "e"%char then
        let '(neg, s1) := read_sign s' in
        match digitpart s1 with
        | ([], _) => None
        | (ds, r) => Some (if neg then - digits_value ds else digits_value ds, r)
        end
      else Some (0, s)
  | [] => Some (0, [])
  end.

Definition read_floatnumber (sign : bool) (s : list ascii) : option float64 :=
  let '(ip, s1) := digitpart s in
  let '(fp, s2) :=
    match s1 with
    | "."%char :: s1' => digitpart s1'
    | _ => ([], s1)
    end in
  match ip ++ fp with
  | [] => None
  | ds =>
      match read_exponent s2 with
      | Some (ex, []) =>
          Some (decimal_to_float sign (digits_value ds) (ex - Z.of_nat (length fp)))
      | _ => None
      end
  end.

Definition float_of_str (s : string) : result float64 :=
  let '(sign, body) := read_sign (strip_by c_isspace (float_text s)) in
  let word := string_of_list_ascii (map lower body) in
  if decide (word = "nan") then Ok S754_nan
  else if decide (word = "inf" \/ word = "infinity") then Ok (S754_infinity sign)
  else match read_floatnumber sign body with
       | Some f => Ok f
       | None => Raise ValueError
       end.

(** *** [datetime.date] and [datetime.datetime] (naive) *)

Record date : Type := mk_date { year : Z; month : Z; day : Z }.

Record datetime : Type := mk_datetime {
  dt_date : date;
  hour : Z; minute : Z; second : Z; microsecond : Z
}.

#[global] Instance date_eq_dec : EqDecision date.
Proof. solve_decision. Defined.

#[global] Instance datetime_eq_dec : EqDecision datetime.
Proof. solve_decision. Defined.

(** [datetime.date()]: the time of day is dropped. *)
Definition datetime_date (t : datetime) : date := dt_date t.

Definition lex (c1 c2 : comparison) : comparison :=
  match c1 with Eq => c2 | _ => c1 end.

Definition date_compare (d1 d2 : date) : comparison :=
  lex (year d1 ?= year d2) (lex (month d1 ?= month d2) (day d1 ?= day d2)).

Definition datetime_compare (t1 t2 : datetime) : comparison :=
  lex (date_compare (dt_date t1) (dt_date t2))
    (lex (hour t1 ?= hour t2)
       (lex (minute t1 ?= minute t2)
          (lex (second t1 ?= second t2) (microsecond t1 ?= microsecond t2)))).

(** [sys.maxsize], on a 64-bit build. *)
Definition sys_maxsize : Z := 2 ^ 63 - 1.

(** *** [itertools.islice(iterable, stop)]

    [stop] is [None] (everything) or an integer from 0 to [sys.maxsize]
    (the first [stop] items); any other integer is a [ValueError]. *)
Definition islice {A : Type} (iterable : list A) (stop : option Z) : result (list A) :=
  match stop with
  | None => Ok iterable
  | Some n =>
      if (n <? 0) || (sys_maxsize <? n) then Raise ValueError
      else Ok (take (Z.to_nat n) iterable)
  end.

(** [d[k]] on a dictionary with string keys. *)
Definition getitem {V : Type} (d : gmap string V) (k : string) : result V :=
  match d !! k with
  | Some v => Ok v
  | None => Raise KeyError
  end.

(** [len(s)] on a string. *)
Definition len (s : string) : Z := Z.of_nat (String.length s).

(** [str.strip()]: the characters that are white space are dropped at both
    ends. *)
Definition str_strip (s : string) : string :=
  string_of_list_ascii
    (concat (map snd (strip_by (fun ch => py_isspace (fst ch))
                        (chars (list_ascii_of_string s))))).

(** [str(b)] on a boolean. *)
Definition str_of_bool (b : bool) : string := if b then "True" else "False".

End Py.
Import Py.

(** ** models.py *)

(** Position of a close approach in the database's collection: the
    back-links of an object are kept as such positions. *)
Definition approach_ref : Type := nat.

Record NearEarthObject : Type := mk_neo {
  designation : string;
  name : option string;
  diameter : float64;
  hazardous : bool;
  approaches : list approach_ref
}.

Record CloseApproach : Type := mk_approach {
  _designation : string;
  time : datetime;
  distance : float64;
  velocity : float64;
  neo : option NearEarthObject
}.

(** The body of [NearEarthObject.__init__]: [info] holds the keyword
    arguments, the string cells of one row of the CSV file under its
    column names. *)
Definition NearEarthObject_init (info : gmap string string) : result NearEarthObject :=
  pdes ← getitem info "pdes";
  nm ← getitem info "name";
  dm ← getitem info "diameter";
  d ← (if decide (len dm = 0) then Ok nan else float_of_str dm);
  pha ← getitem info "pha";
  Ok {| designation := pdes;
        name := if decide (len nm = 0) then None else Some nm;
        diameter := d;
        hazardous := if decide (pha = "Y") then true else false;
        approaches := [] |}.

(** The call of [NearEarthObject] with the cells of a row as keyword
    arguments, for a row whose column names and cells are all strings: a
    column named [self] collides with the first parameter of [__init__]
    and the call raises [TypeError] before the body runs. *)
Definition NearEarthObject_call (elm : gmap string string) : result NearEarthObject :=
  if decide (is_Some (elm !! "self")) then Raise TypeError
  else NearEarthObject_init elm.

Section Helpers.

(** [helpers.cd_to_datetime] is not part of these sources; the
    constructor is stated over any parser of calendar dates. *)
Variable cd_to_datetime : string -> result datetime.

(** [CloseApproach.__init__]: [info] holds the keyword arguments. *)
Definition CloseApproach_init (info : gmap string string) : result CloseApproach :=
  des ← getitem info "des";
  cd ← getitem info "cd";
  t ← cd_to_datetime (str_strip cd);
  dist ← getitem info "dist";
  dist ← float_of_str dist;
  v_rel ← getitem info "v_rel";
  v_rel ← float_of_str v_rel;
  Ok {| _designation := des; time := t; distance := dist; velocity := v_rel;
        neo := None |}.

End Helpers.

(** *** Values handled by the filters and the serializers *)

Inductive pyval : Type :=
  | PyNone
  | PyBool (b : bool)
  | PyFloat (f : float64)
  | PyStr (s : string)
  | PyDate (d : date)
  | PyDatetime (t : datetime)
  | PyNeo (n : NearEarthObject).

(** A dictionary literal, in insertion order. *)
Definition pydict : Type := list (string * pyval).

Definition of_option_str (o : option string) : pyval :=
  match o with Some s => PyStr s | None => PyNone end.

(** The frame of a finished call: its local variables and what it returns. *)
Record frame : Type := mk_frame {
  f_locals : list (string * pydict);
  f_return : pyval
}.

(** [NearEarthObject.serialize]: the body assigns [res] and ends; no
    [return] statement follows, so the call returns [None]. *)
Definition NearEarthObject_serialize_frame (self : NearEarthObject) : frame :=
  let res : pydict :=
    [("designation", PyStr (designation self));
     ("name", of_option_str (name self));
     ("diameter_km", PyFloat (diameter self));
     ("potentially_hazardous", PyStr (str_of_bool (hazardous self)))] in
  {| f_locals := [("res", res)]; f_return := PyNone |}.

Definition NearEarthObject_serialize (self : NearEarthObject) : pyval :=
  f_return (NearEarthObject_serialize_frame self).

(** ** The [operator] module on these values *)

(** Booleans are integers, and compare with floats as the numbers 0 and 1. *)
Definition as_number (v : pyval) : option float64 :=
  match v with
  | PyBool b => Some (if b then f64_one else f64_zero)
  | PyFloat f => Some f
  | _ => None
  end.

(** [a == b].  Objects of the program's own classes define no [__eq__] and
    compare by identity; two records of one database are the same object
    exactly when they carry the same primary designation. *)
Definition py_eqb (a b : pyval) : bool :=
  match a, b with
  | PyNone, PyNone => true
  | (PyBool _ | PyFloat _), (PyBool _ | PyFloat _) =>
      match as_number a, as_number b with
      | Some x, Some y => f64_eqb x y
      | _, _ => false
      end
  | PyStr s, PyStr t => bool_decide (s = t)
  | PyDate d, PyDate e => bool_decide (d = e)
  | PyDatetime t, PyDatetime u => bool_decide (t = u)
  | PyNeo n, PyNeo m => bool_decide (designation n = designation m)
  | _, _ => false
  end.

(** The three-way comparison behind [<], [<=], [>], [>=]: [None] inside
    [Ok] when a NaN is involved, [TypeError] for unordered types. *)
Definition py_compare (a b : pyval) : result (option comparison) :=
  match a, b with
  | (PyBool _ | PyFloat _), (PyBool _ | PyFloat _) =>
      match as_number a, as_number b with
      | Some x, Some y => Ok (f64_compare x y)
      | _, _ => Raise TypeError
      end
  | PyStr s, PyStr t => Ok (Some (String.compare s t))
  | PyDate d, PyDate e => Ok (Some (date_compare d e))
  | PyDatetime t, PyDatetime u => Ok (Some (datetime_compare t u))
  | _, _ => Raise TypeError
  end.

Definition binop : Type := pyval -> pyval -> result pyval.

Definition operator_eq : binop := fun a b => Ok (PyBool (py_eqb a b)).

Definition operator_ge : binop := fun a b =>
  c ← py_compare a b;
  Ok (PyBool (match c with Some (Gt | Eq) => true | _ => false end)).

Definition operator_le : binop := fun a b =>
  c ← py_compare a b;
  Ok (PyBool (match c with Some (Lt | Eq) => true | _ => false end)).

(** Truth value of an object, as [all] and [if] test it. *)
Definition truthy (v : pyval) : bool :=
  match v with
  | PyNone => false
  | PyBool b => b
  | PyFloat f => negb (f64_eqb f f64_zero)
  | PyStr s => negb (bool_decide (s = ""))
  | PyDate _ | PyDatetime _ | PyNeo _ => true
  end.

(** ** filters.py *)

(** What [getattr] is called on: a close approach, or what its [neo]
    attribute holds. *)
Inductive object : Type :=
  | ObjApproach (a : CloseApproach)
  | ObjNeo (n : NearEarthObject)
  | ObjNone.

Definition neo_object (approach : CloseApproach) : object :=
  match neo approach with
  | Some n => ObjNeo n
  | None => ObjNone
  end.

(** [getattr(obj, name)] on the instance attributes that hold a value of
    [pyval] and on the property [fullname]; the property [time_str], whose
    text the absent helpers decide, the methods and the attributes that
    every object has are reported as missing. *)
Definition getattr (obj : object) (attr : string) : result pyval :=
  match obj with
  | ObjApproach a =>
      if decide (attr = "fullname") then Ok (PyStr (_designation a))
      else if decide (attr = "_designation") then Ok (PyStr (_designation a))
      else if decide (attr = "time") then Ok (PyDatetime (time a))
      else if decide (attr = "distance") then Ok (PyFloat (distance a))
      else if decide (attr = "velocity") then Ok (PyFloat (velocity a))
      else if decide (attr = "neo")
           then Ok (match neo a with Some n => PyNeo n | None => PyNone end)
      else Raise AttributeError
  | ObjNeo n =>
      if decide (attr = "fullname")
      then Ok (PyStr (default "None" (name n) +:+ "-" +:+ designation n))
      else if decide (attr = "designation") then Ok (PyStr (designation n))
      else if decide (attr = "name") then Ok (of_option_str (name n))
      else if decide (attr = "diameter") then Ok (PyFloat (diameter n))
      else if decide (attr = "hazardous") then Ok (PyBool (hazardous n))
      else Raise AttributeError
  | ObjNone => Raise AttributeError
  end.

(** [res.date()]. *)
Definition date_method (res : pyval) : result pyval :=
  match res with
  | PyDatetime t => Ok (PyDate (datetime_date t))
  | _ => Raise AttributeError
  end.

(** The class of a filter decides which [get] a call reaches. *)
Inductive filter_class : Type :=
  | AttributeFilter_cls
  | GetAttribute_cls.

Record AttributeFilter : Type := mk_filter {
  cls : filter_class;
  op : binop;
  value : pyval
}.

(** [AttributeFilter.__init__(op, value)]. *)
Definition AttributeFilter_init (op : binop) (value : pyval) : AttributeFilter :=
  {| cls := AttributeFilter_cls; op := op; value := value |}.

(** [GetAttribute.__init__(op, value, attr)]: only the parent's
    constructor runs, [attr] is stored nowhere. *)
Definition GetAttribute_init (op : binop) (value : pyval) (attr : string) : AttributeFilter :=
  let 'mk_filter _ self_op self_value := AttributeFilter_init op value in
  {| cls := GetAttribute_cls; op := self_op; value := self_value |}.

(** [AttributeFilter.get]: the base class has no rule for any attribute. *)
Definition AttributeFilter_get (approach : CloseApproach) (attr_interest : string)
  : result pyval :=
  Raise UnsupportedCriterionError.

(** [GetAttribute.get]. *)
Definition GetAttribute_get (approach : CloseApproach) (attr_interest : string)
  : result pyval :=
  let obj := ObjApproach approach in
  let obj :=
    if decide (attr_interest ∈ ["hazardous"; "diameter"])
    then neo_object approach
    else obj in
  res ← getattr obj attr_interest;
  if decide (attr_interest = "time") then date_method res else Ok res.

(** [self.get]: the class method of the filter's own class. *)
Definition get (c : filter_class) : CloseApproach -> string -> result pyval :=
  match c with
  | AttributeFilter_cls => AttributeFilter_get
  | GetAttribute_cls => GetAttribute_get
  end.

(** [AttributeFilter.__call__(approach, attr_interest)]. *)
Definition call (self : AttributeFilter) (approach : CloseApproach)
    (attr_interest : string) : result pyval :=
  v ← get (cls self) approach attr_interest;
  op self v (value self).

(** The dictionary literal [mapping_param]. *)
Definition mapping_param : gmap string string :=
  list_to_map
    [("date", "time"); ("start_date", "time"); ("end_date", "time");
     ("distance_min", "distance"); ("distance_max", "distance");
     ("velocity_min", "velocity"); ("velocity_max", "velocity");
     ("diameter_min", "diameter"); ("diameter_max", "diameter");
     ("hazardous", "hazardous")].

(** [locals()] on entry: the parameters, in the order of the signature. *)
Definition locals (date start_date end_date distance_min distance_max
    velocity_min velocity_max diameter_min diameter_max hazardous : pyval)
  : list (string * pyval) :=
  [("date", date); ("start_date", start_date); ("end_date", end_date);
   ("distance_min", distance_min); ("distance_max", distance_max);
   ("velocity_min", velocity_min); ("velocity_max", velocity_max);
   ("diameter_min", diameter_min); ("diameter_max", diameter_max);
   ("hazardous", hazardous)].

(** [v is not None]. *)
Definition is_not_None (v : pyval) : bool :=
  match v with PyNone => false | _ => true end.

(** [{k: v for k, v in arg_dict.items() if v is not None}]: the options
    that are set, still in the order of the signature. *)
Definition set_options (arg_dict : list (string * pyval)) : list (string * pyval) :=
  List.filter (fun kv => is_not_None (snd kv)) arg_dict.

(** One round of the loop over [arg_dict.items()]: the [if]/[elif] chain. *)
Definition append_filter (res : list AttributeFilter) (arg : string) (val : pyval)
  : result (list AttributeFilter) :=
  if decide (arg = "distance_min") then
    a ← getitem mapping_param arg; Ok (res ++ [GetAttribute_init operator_ge val a])
  else if decide (arg = "distance_max") then
    a ← getitem mapping_param arg; Ok (res ++ [GetAttribute_init operator_le val a])
  else if decide (arg = "velocity_min") then
    a ← getitem mapping_param arg; Ok (res ++ [GetAttribute_init operator_ge val a])
  else if decide (arg = "velocity_max") then
    a ← getitem mapping_param arg; Ok (res ++ [GetAttribute_init operator_le val a])
  else if decide (arg = "date") then
    a ← getitem mapping_param arg; Ok (res ++ [GetAttribute_init operator_eq val a])
  else if decide (arg = "start_date") then
    a ← getitem mapping_param arg; Ok (res ++ [GetAttribute_init operator_ge val a])
  else if decide (arg = "end_date") then
    a ← getitem mapping_param arg; Ok (res ++ [GetAttribute_init operator_le val a])
  else if decide (arg = "hazardous") then
    a ← getitem mapping_param arg; Ok (res ++ [GetAttribute_init operator_eq val a])
  else if decide (arg = "diameter_min") then
    a ← getitem mapping_param arg; Ok (res ++ [GetAttribute_init operator_ge val a])
  else if decide (arg = "diameter_max") then
    a ← getitem mapping_param arg; Ok (res ++ [GetAttribute_init operator_le val a])
  else Ok res.

Fixpoint append_filters (res : list AttributeFilter) (items : list (string * pyval))
  : result (list AttributeFilter) :=
  match items with
  | [] => Ok res
  | (arg, val) :: items' =>
      res' ← append_filter res arg val;
      append_filters res' items'
  end.

(** [[mapping_param[arg] for arg in arg_dict]]. *)
Fixpoint attrs_of_interest (items : list (string * pyval)) : result (list string) :=
  match items with
  | [] => Ok []
  | (arg, _) :: items' =>
      a ← getitem mapping_param arg;
      rest ← attrs_of_interest items';
      Ok (a :: rest)
  end.

(** [create_filters]. *)
Definition create_filters (date start_date end_date distance_min distance_max
    velocity_min velocity_max diameter_min diameter_max hazardous : pyval)
  : result (list AttributeFilter * list string) :=
  let arg_dict := locals date start_date end_date distance_min distance_max
                    velocity_min velocity_max diameter_min diameter_max hazardous in
  let arg_dict := set_options arg_dict in
  let res : list AttributeFilter := [] in
  attr_of_interest ← attrs_of_interest arg_dict;
  if decide (length arg_dict = 0%nat) then Ok (res, [])
  else
    res ← append_filters res arg_dict;
    Ok (res, attr_of_interest).

(** [limit(iterator, n)]. *)
Definition limit {A : Type} (iterator : list A) (n : option Z) : result (list A) :=
  let n := if decide (n = Some 0) then None else n in
  islice iterator n.

(** ** The query engine *)

(** Modelled from the spec: the query engine ([NEODatabase.query], in a
    file that is not among the sources).  It keeps, in order, the records
    for which every predicate holds; each predicate is called with the
    attribute name at its position in the builder's second list, and a
    record is given up at its first failing predicate. *)
Fixpoint matches (preds : list (AttributeFilter * string)) (approach : CloseApproach)
  : result bool :=
  match preds with
  | [] => Ok true
  | (f, attr) :: preds' =>
      r ← call f approach attr;
      if truthy r then matches preds' approach else Ok false
  end.

(** Modelled from the spec: the scan of the query engine over the records
    of the store, in their order. *)
Fixpoint query_with (preds : list (AttributeFilter * string)) (records : list CloseApproach)
  : result (list CloseApproach) :=
  match records with
  | [] => Ok []
  | a :: records' =>
      keep ← matches preds a;
      rest ← query_with preds records';
      Ok (if (keep : bool) then a :: rest else rest)
  end.

(** Modelled from the spec: the query engine applied to what the builder
    returns, its predicates paired with its attribute names. *)
Definition query (records : list CloseApproach)
    (filters : list AttributeFilter * list string) : result (list CloseApproach) :=
  query_with (zip (fst filters) (snd filters)) records.

(** ** The builder's table, as the specification words it *)

Definition option_names : list string :=
  ["date"; "start_date"; "end_date"; "distance_min"; "distance_max";
   "velocity_min"; "velocity_max"; "diameter_min"; "diameter_max"; "hazardous"].

(** Equality for [date] and [hazardous], greater-or-equal for [start_date]
    and the minima, less-or-equal for [end_date] and the maxima. *)
Definition spec_operator (option : string) : binop :=
  if decide (option ∈ ["date"; "hazardous"]) then operator_eq
  else if decide (option ∈ ["start_date"; "distance_min"; "velocity_min"; "diameter_min"])
       then operator_ge
  else operator_le.

Definition spec_target (option : string) : string :=
  if decide (option ∈ ["date"; "start_date"; "end_date"]) then "time"
  else if decide (option ∈ ["distance_min"; "distance_max"]) then "distance"
  else if decide (option ∈ ["velocity_min"; "velocity_max"]) then "velocity"
  else if decide (option ∈ ["diameter_min"; "diameter_max"]) then "diameter"
  else "hazardous".

(** What a predicate on [target] is to compare: the date part of the
    approach's time, the approach's own distance or velocity, or the linked
    object's diameter or hazard flag. *)
Definition spec_attribute (approach : CloseApproach) (linked : NearEarthObject)
    (target : string) : pyval :=
  if decide (target = "time") then PyDate (dt_date (time approach))
  else if decide (target = "distance") then PyFloat (distance approach)
  else if decide (target = "velocity") then PyFloat (velocity approach)
  else if decide (target = "diameter") then PyFloat (diameter linked)
  else PyBool (hazardous linked).

(** The ten recognised options with the values a call gives them, in the
    order the specification lists them. *)
Definition spec_options (date start_date end_date distance_min distance_max
    velocity_min velocity_max diameter_min diameter_max hazardous : pyval)
  : list (string * pyval) :=
  [("date", date); ("start_date", start_date); ("end_date", end_date);
   ("distance_min", distance_min); ("distance_max", distance_max);
   ("velocity_min", velocity_min); ("velocity_max", velocity_max);
   ("diameter_min", diameter_min); ("diameter_max", diameter_max);
   ("hazardous", hazardous)].

(** An option is set when it was given any value but [None]; [False] is
    such a value. *)
Definition spec_is_set (v : pyval) : bool :=
  match v with
  | PyNone => false
  | PyBool _ | PyFloat _ | PyStr _ | PyDate _ | PyDatetime _ | PyNeo _ => true
  end.

(** The predicate and attribute name a single option is to contribute. *)
Definition spec_emitted (kv : string * pyval) : list (AttributeFilter * string) :=
  if spec_is_set kv.2
  then [(GetAttribute_init (spec_operator kv.1) kv.2 (spec_target kv.1), spec_target kv.1)]
  else [].

(** The data-model reading of a diameter: a finite number that is not
    negative. *)
Definition is_nonneg_number (f : float64) : bool :=
  match f with
  | S754_zero _ | S754_finite false _ _ => true
  | _ => false
  end.

(** Whether the text of a number opens with a minus sign, once the white
    space that [float] skips in front of it is set aside. *)
Definition has_minus_sign (s : string) : bool :=
  fst (read_sign (strip_by c_isspace (float_text s))).

(** The sign bit of a float that has one. *)
Definition sign_bit (f : float64) : bool :=
  match f with
  | S754_zero s | S754_infinity s | S754_finite s _ _ => s
  | S754_nan => false
  end.

(** The predicate the table assigns to an option and its value. *)
Definition mk_pred (kv : string * pyval) : AttributeFilter :=
  GetAttribute_init (spec_operator kv.1) kv.2 (spec_target kv.1).

(** The invariant of the data model on a stored diameter: the NaN sentinel
    or a number that is not negative. *)
Definition diameter_invariant (n : NearEarthObject) : Prop :=
  is_nan (diameter n) = true \/ is_nonneg_number (diameter n) = true.

(** ** Sample data *)

Definition float_lit (s : string) : float64 :=
  match float_of_str s with Ok f => f | Raise _ => nan end.

Definition eros_row : gmap string string :=
  list_to_map [("pdes", "433"); ("name", "Eros"); ("diameter", "16.84"); ("pha", "N")].

Definition unknown_row : gmap string string :=
  list_to_map [("pdes", "2019 XY"); ("name", ""); ("diameter", ""); ("pha", "Y")].

Definition negative_row : gmap string string :=
  list_to_map [("pdes", "2020 AB"); ("name", ""); ("diameter", "-1"); ("pha", "N")].

Definition eros : NearEarthObject :=
  {| designation := "433"; name := Some "Eros";
     diameter := ltac:(let f := eval vm_compute in (float_lit "16.84") in exact f);
     hazardous := false; approaches := [] |}.

Definition unknown_neo : NearEarthObject :=
  {| designation := "2019 XY"; name := None; diameter := nan;
     hazardous := true; approaches := [] |}.

Definition negative_neo : NearEarthObject :=
  {| designation := "2020 AB"; name := None;
     diameter := ltac:(let f := eval vm_compute in (float_lit "-1") in exact f);
     hazardous := false; approaches := [] |}.

Definition eros_approach : CloseApproach :=
  {| _designation := "433";
     time := mk_datetime (mk_date 2025 11 30) 2 18 0 0;
     distance := ltac:(let f := eval vm_compute in (float_lit "0.39") in exact f);
     velocity := ltac:(let f := eval vm_compute in (float_lit "3.72") in exact f);
     neo := Some eros |}.

Definition unknown_approach : CloseApproach :=
  {| _designation := "2019 XY";
     time := mk_datetime (mk_date 2020 1 1) 12 0 0 0;
     distance := ltac:(let f := eval vm_compute in (float_lit "0.1") in exact f);
     velocity := ltac:(let f := eval vm_compute in (float_lit "10") in exact f);
     neo := Some unknown_neo |}.

Definition half_au : pyval := PyFloat ltac:(let f := eval vm_compute in (float_lit "0.5") in exact f).

Definition four_km_s : pyval := PyFloat ltac:(let f := eval vm_compute in (float_lit "4.0") in exact f).

Definition ten_approaches : list CloseApproach :=
  map (fun d => {| _designation := "433";
                   time := mk_datetime (mk_date 2020 1 d) 0 0 0 0;
                   distance := distance eros_approach;
                   velocity := velocity eros_approach;
                   neo := Some eros |})
      [1; 2; 3; 4; 5; 6; 7; 8; 9; 10].

Definition approach_on (d : date) : CloseApproach :=
  {| _designation := "433"; time := mk_datetime d 9 30 0 0;
     distance := distance eros_approach; velocity := velocity eros_approach;
     neo := Some eros |}.

(** ** models.py: the record serializer *)

(** What stands under a key of a serialized record: a plain value or a
    nested dictionary. *)
Inductive pyobj : Type :=
  | PyV (v : pyval)
  | PyD (d : pydict).

(** A dictionary of such entries, in insertion order. *)
Definition objdict : Type := list (string * pyobj).

Section Serializer.

(** [helpers.datetime_to_str] is not part of these sources; the serializer
    is stated over any formatter of timestamps. *)
Variable datetime_to_str : datetime -> string.

(** [CloseApproach.serialize]: the entries are evaluated in the order of
    the dictionary display, and every [self.neo.x] is an attribute access
    on what [self.neo] holds. *)
Definition CloseApproach_serialize (self : CloseApproach) : result objdict :=
  let datetime_utc := PyStr (datetime_to_str (time self)) in
  des ← getattr (neo_object self) "designation";
  haz ← getattr (neo_object self) "hazardous";
  dia ← getattr (neo_object self) "diameter";
  nm ← getattr (neo_object self) "name";
  nm ← match nm with
       | PyNone => Ok (PyStr "")
       | _ => getattr (neo_object self) "name"
       end;
  Ok [("datetime_utc", PyV datetime_utc);
      ("distance_au", PyV (PyFloat (distance self)));
      ("velocity_km_s", PyV (PyFloat (velocity self)));
      ("neo", PyD [("designation", des);
                   ("potentially_hazardous", haz);
                   ("diameter_km", dia);
                   ("name", nm)])].

(** ** write.py *)

(** Dictionaries as association lists with one entry per key. *)
Fixpoint dict_get {V : Type} (d : list (string * V)) (k : string) : option V :=
  match d with
  | [] => None
  | (k', v) :: d' => if decide (k' = k) then Some v else dict_get d' k
  end.

(** [d[k]]. *)
Definition dict_getitem {V : Type} (d : list (string * V)) (k : string) : result V :=
  match dict_get d k with
  | Some v => Ok v
  | None => Raise KeyError
  end.

Fixpoint dict_remove {V : Type} (d : list (string * V)) (k : string) : list (string * V) :=
  match d with
  | [] => []
  | (k', v) :: d' => if decide (k' = k) then dict_remove d' k else (k', v) :: dict_remove d' k
  end.

(** [del d[k]]. *)
Definition dict_del {V : Type} (d : list (string * V)) (k : string)
  : result (list (string * V)) :=
  match dict_get d k with
  | Some _ => Ok (dict_remove d k)
  | None => Raise KeyError
  end.

(** [d[k] = v]: an existing key keeps its place, a new one goes last. *)
Fixpoint dict_set {V : Type} (d : list (string * V)) (k : string) (v : V)
  : list (string * V) :=
  match d with
  | [] => [(k, v)]
  | (k', v') :: d' =>
      if decide (k' = k) then (k, v) :: d' else (k', v') :: dict_set d' k v
  end.

(** [d.update(other)]: a dictionary is merged entry by entry; the empty
    string is an empty sequence of pairs, any other string is a sequence
    of things that are no pairs, and the remaining values cannot be
    iterated. *)
Definition dict_update (d : objdict) (other : pyobj) : result objdict :=
  match other with
  | PyD o => Ok (fold_left (fun acc kv => dict_set acc kv.1 (PyV kv.2)) o d)
  | PyV (PyStr s) => if decide (s = "") then Ok d else Raise ValueError
  | PyV _ => Raise TypeError
  end.

(** The tuple [fieldnames]. *)
Definition fieldnames : list string :=
  ["datetime_utc"; "distance_au"; "velocity_km_s"; "designation"; "name";
   "diameter_km"; "potentially_hazardous"].

(** [csv.DictWriter.writerow], up to the encoding of a record as a line of
    text: a key outside the field names is a [ValueError]; otherwise the
    record has one cell per field name, empty where the key is missing. *)
Definition DictWriter_record (rowdict : list (string * string)) : result (list string) :=
  if forallb (fun kv => bool_decide (kv.1 ∈ fieldnames)) rowdict
  then Ok (map (fun key => default "" (dict_get rowdict key)) fieldnames)
  else Raise ValueError.

(** The builtin [str] on the entries of a row; how it prints a float is
    not fixed here. *)
Variable str : pyobj -> string.

(** One round of the loop of [write_to_csv]: the record written for [app]. *)
Definition csv_record (app : CloseApproach) : result (list string) :=
  app_dict ← CloseApproach_serialize app;
  neo_dict ← dict_getitem app_dict "neo";
  app_dict ← dict_del app_dict "neo";
  app_dict ← dict_update app_dict neo_dict;
  let app_dict := map (fun kv => (kv.1, str kv.2)) app_dict in
  DictWriter_record app_dict.

(** What a writer is handed as [results]: [None], a list, or an iterator
    (such as the [islice] object that [limit] returns) over the items it
    will yield. *)
Inductive results_arg : Type :=
  | ResultsNone
  | ResultsList (l : list CloseApproach)
  | ResultsIterator (l : list CloseApproach).

(** [for app in results]: the items, or [TypeError] for [None]. *)
Definition iterate (results : results_arg) : result (list CloseApproach) :=
  match results with
  | ResultsNone => Raise TypeError
  | ResultsList l | ResultsIterator l => Ok l
  end.

(** [len(results)]: iterators have none. *)
Definition results_len (results : results_arg) : result Z :=
  match results with
  | ResultsList l => Ok (Z.of_nat (length l))
  | ResultsNone | ResultsIterator _ => Raise TypeError
  end.

(** The loop of [write_to_csv] over the items: the records written so far
    and how the loop ended. *)
Fixpoint write_records (items : list CloseApproach) (written : list (list string))
  : list (list string) * result unit :=
  match items with
  | [] => (written, Ok tt)
  | app :: items' =>
      match csv_record app with
      | Ok record => write_records items' (written ++ [record])
      | Raise e => (written, Raise e)
      end
  end.

(** [write_to_csv(results, filename)]: the records the file receives, the
    header first, and the outcome of the call. *)
Definition write_to_csv (results : results_arg) : list (list string) * result unit :=
  let written := [fieldnames] in
  match iterate results with
  | Ok items => write_records items written
  | Raise e => (written, Raise e)
  end.

(** [[app.serialize() for app in results]]. *)
Fixpoint serialize_all (items : list CloseApproach) : result (list objdict) :=
  match items with
  | [] => Ok []
  | app :: items' =>
      d ← CloseApproach_serialize app;
      rest ← serialize_all items';
      Ok (d :: rest)
  end.

(** [write_to_json(results, filename)]: the list handed to [json.dump]. *)
Definition write_to_json (results : results_arg) : result (list objdict) :=
  results ← match results with
            | ResultsNone => Ok (ResultsList [])
            | _ =>
                n ← results_len results;
                Ok (if decide (n = 0) then ResultsList [] else results)
            end;
  items ← iterate results;
  serialize_all items.

End Serializer.

(** [limit(iterator, n)] as the object it returns: an [islice] iterator
    over the items of [limit]. *)
Definition limit_object (iterator : list CloseApproach) (n : option Z) : result results_arg :=
  items ← limit iterator n;
  Ok (ResultsIterator items).

(** ** extract.py *)


(** What [json.load] returns for the file of close approaches: the column
    names under [fields] and the rows of cells under [data], all cells
    being strings. *)
Record cad_content : Type := mk_content {
  content_fields : list string;
  content_data : list (list string)
}.

(** The loader can raise [IndexError] besides the exceptions above. *)
Inductive load_exn : Type :=
  | IndexError
  | PyExn (e : exn).

Inductive loaded (A : Type) : Type :=
  | Loaded (a : A)
  | LoadFailed (e : load_exn).
Arguments Loaded {A} a.
Arguments LoadFailed {A} e.

#[global] Instance loaded_ret : MRet loaded := fun _ a => Loaded a.
#[global] Instance loaded_bind : MBind loaded := fun _ _ f m =>
  match m with
  | Loaded a => f a
  | LoadFailed e => LoadFailed e
  end.

Definition of_result {A : Type} (r : result A) : loaded A :=
  match r with
  | Ok a => Loaded a
  | Raise e => LoadFailed (PyExn e)
  end.

(** [l.index(x)]: the first position of [x], or [ValueError]. *)
Fixpoint list_index (l : list string) (x : string) : result nat :=
  match l with
  | [] => Raise ValueError
  | y :: l' => if decide (y = x) then Ok 0%nat else i ← list_index l' x; Ok (S i)
  end.

(** [itm[i]] for a position that is not negative. *)
Definition list_getitem (itm : list string) (i : nat) : loaded string :=
  match itm !! i with
  | Some c => Loaded c
  | None => LoadFailed IndexError
  end.

Definition fields_wanted : list string := ["des"; "cd"; "dist"; "v_rel"].

(** [[content['fields'].index(field) for field in fields_wanted]]. *)
Fixpoint indices (fields : list string) (wanted : list string) : result (list nat) :=
  match wanted with
  | [] => Ok []
  | field :: wanted' =>
      i ← list_index fields field;
      rest ← indices fields wanted';
      Ok (i :: rest)
  end.

(** [[itm[i] for i in idx]]. *)
Fixpoint cells (itm : list string) (idx : list nat) : loaded (list string) :=
  match idx with
  | [] => Loaded []
  | i :: idx' =>
      c ← list_getitem itm i;
      rest ← cells itm idx';
      Loaded (c :: rest)
  end.

(** [{k: v for k, v in zip(fields_wanted, info)}]. *)
Definition info_dict (info : list string) : gmap string string :=
  fold_left (fun d kv => <[kv.1 := kv.2]> d) (zip fields_wanted info) ∅.

Section Loader.

Variable cd_to_datetime : string -> result datetime.

(** The loop of [load_approaches] over [content['data']]. *)
Fixpoint load_rows (idx : list nat) (data : list (list string)) : loaded (list CloseApproach) :=
  match data with
  | [] => Loaded []
  | itm :: data' =>
      info ← cells itm idx;
      obj ← of_result (CloseApproach_init cd_to_datetime (info_dict info));
      res ← load_rows idx data';
      Loaded (obj :: res)
  end.

(** [load_approaches], from what [json.load] returns for the file. *)
Definition load_approaches (content : cad_content) : loaded (list CloseApproach) :=
  idx ← of_result (indices (content_fields content) fields_wanted);
  load_rows idx (content_data content).

End Loader.

(** ** Notions used to state further properties *)

(** A text made of white space only. *)
Definition is_blank (s : string) : bool :=
  forallb is_space (list_ascii_of_string s).

(** The fields the constructor of an object reads. *)
Definition neo_fields : list string := ["pdes"; "name"; "diameter"; "pha"].

(** The cell of the row [itm] that stands under the first column named
    [field]. *)
Definition cell_under (fields : list string) (itm : list string) (field : string)
  : option string :=
  match list_index fields field with
  | Ok i => itm !! i
  | Raise _ => None
  end.

(** A parser of calendar dates for the examples: it accepts one text. *)
Definition sample_cd_to_datetime (s : string) : result datetime :=
  if decide (s = "2025-Nov-30 02:18")
  then Ok (mk_datetime (mk_date 2025 11 30) 2 18 0 0)
  else Raise ValueError.

Definition sample_datetime_to_str (t : datetime) : string :=
  if decide (t = mk_datetime (mk_date 2025 11 30) 2 18 0 0)
  then "2025-11-30 02:18" else "other".

Definition sample_str (v : pyobj) : string :=
  match v with
  | PyV (PyStr s) => s
  | PyV (PyBool b) => str_of_bool b
  | PyV PyNone => "None"
  | _ => "?"
  end.

Definition eros_cad_row : gmap string string :=
  list_to_map [("des", "433"); ("cd", " 2025-Nov-30 02:18 "); ("dist", "0.39");
               ("v_rel", "3.72")].

Definition eros_unlinked : CloseApproach :=
  {| _designation := "433";
     time := mk_datetime (mk_date 2025 11 30) 2 18 0 0;
     distance := distance eros_approach;
     velocity := velocity eros_approach;
     neo := None |}.

Definition sample_content : cad_content :=
  {| content_fields := ["des"; "orbit_id"; "cd"; "dist"; "v_rel"];
     content_data := [["433"; "659"; "2025-Nov-30 02:18"; "0.39"; "3.72"]] |}.

(** Whether a close approach has been linked to its object. *)
Definition linked (a : CloseApproach) : Prop := is_Some (neo a).

Definition eros_row_wide : gmap string string :=
  <["orbit_id" := "JPL 659"]> (<["neo" := "Y"]> eros_row).

Definition blank_row : gmap string string :=
  list_to_map [("pdes", "2021 CD"); ("name", ""); ("diameter", "  "); ("pha", "N")].

Definition incomplete_content : cad_content :=
  {| content_fields := ["des"; "orbit_id"; "cd"; "dist"]; content_data := [] |}.

(** The options that bound a number from below or from above. *)
Definition range_options : list string :=
  ["distance_min"; "distance_max"; "velocity_min"; "velocity_max";
   "diameter_min"; "diameter_max"].

(** * Properties *)

(** ** Helper lemmas *)

Lemma bind_Ok {A B : Type} (a : A) (k : A -> result B) : (Ok a ≫= k) = k a.
Proof. reflexivity. Qed.

Lemma bind_inv {A B : Type} (m : result A) (k : A -> result B) (b : B) :
  (m ≫= k) = Ok b -> exists a, m = Ok a /\ k a = Ok b.
Proof. destruct m as [a | e]; [eauto | discriminate]. Qed.

Ltac list_cases H :=
  repeat (rewrite elem_of_cons in H; destruct H as [-> | H]);
  try (rewrite elem_of_nil in H; contradiction).

Ltac option_cases H := unfold option_names in H; list_cases H.

Ltac list_member :=
  repeat first [apply list_elem_of_here | apply list_elem_of_further].

Lemma mapping_param_spec (k : string) :
  k ∈ option_names -> getitem mapping_param k = Ok (spec_target k).
Proof. intros H. option_cases H; reflexivity. Qed.

Lemma append_filter_spec (res : list AttributeFilter) (k : string) (v : pyval) :
  k ∈ option_names ->
  append_filter res k v
  = Ok (res ++ [GetAttribute_init (spec_operator k) v (spec_target k)]).
Proof. intros H. option_cases H; reflexivity. Qed.

Lemma append_filters_spec (items : list (string * pyval)) (res : list AttributeFilter) :
  Forall (fun kv => kv.1 ∈ option_names) items ->
  append_filters res items = Ok (res ++ map mk_pred items).
Proof.
  intros H. revert res.
  induction H as [| [k v] items Hk _ IH]; intros res; simpl.
  - by rewrite app_nil_r.
  - rewrite (append_filter_spec res k v Hk), bind_Ok, IH.
    by rewrite <- app_assoc.
Qed.

Lemma attrs_of_interest_spec (items : list (string * pyval)) :
  Forall (fun kv => kv.1 ∈ option_names) items ->
  attrs_of_interest items = Ok (map (fun kv => spec_target kv.1) items).
Proof.
  induction 1 as [| [k v] items Hk _ IH]; simpl; [done |].
  by rewrite (mapping_param_spec k Hk), bind_Ok, IH.
Qed.

Lemma locals_names (v1 v2 v3 v4 v5 v6 v7 v8 v9 v10 : pyval) :
  Forall (fun kv => kv.1 ∈ option_names) (locals v1 v2 v3 v4 v5 v6 v7 v8 v9 v10).
Proof. unfold locals, option_names. repeat constructor; simpl; list_member. Qed.

Lemma set_options_names (args : list (string * pyval)) :
  Forall (fun kv => kv.1 ∈ option_names) args ->
  Forall (fun kv => kv.1 ∈ option_names) (set_options args).
Proof.
  unfold set_options. induction 1 as [| kv args Hk _ IH]; simpl; [constructor |].
  destruct (is_not_None kv.2); [by constructor | done].
Qed.

(** The builder never fails, and both of its lists are images of the set
    options. *)
Lemma create_filters_eq (v1 v2 v3 v4 v5 v6 v7 v8 v9 v10 : pyval) :
  let items := set_options (locals v1 v2 v3 v4 v5 v6 v7 v8 v9 v10) in
  create_filters v1 v2 v3 v4 v5 v6 v7 v8 v9 v10
  = Ok (map mk_pred items, map (fun kv => spec_target kv.1) items).
Proof.
  intros items. unfold create_filters. fold items.
  assert (Hn : Forall (fun kv => kv.1 ∈ option_names) items)
    by apply set_options_names, locals_names.
  rewrite (attrs_of_interest_spec items Hn), bind_Ok.
  destruct (decide (length items = 0%nat)) as [H0 | H0].
  - apply nil_length_inv in H0. by rewrite H0.
  - by rewrite (append_filters_spec items [] Hn), bind_Ok.
Qed.

Lemma zip_map_same {A B C : Type} (f : A -> B) (g : A -> C) (l : list A) :
  zip (map f l) (map g l) = map (fun x => (f x, g x)) l.
Proof. induction l as [| x l IH]; simpl; [done | by rewrite IH]. Qed.

Lemma emitted_flat_map (args : list (string * pyval)) :
  map (fun kv => (mk_pred kv, spec_target kv.1)) (set_options args)
  = flat_map spec_emitted args.
Proof.
  unfold set_options, spec_emitted, mk_pred.
  induction args as [| [k v] args IH]; simpl; [done |].
  destruct v; simpl; by rewrite IH.
Qed.

Lemma locals_spec_options (v1 v2 v3 v4 v5 v6 v7 v8 v9 v10 : pyval) :
  locals v1 v2 v3 v4 v5 v6 v7 v8 v9 v10 = spec_options v1 v2 v3 v4 v5 v6 v7 v8 v9 v10.
Proof. reflexivity. Qed.

Lemma GetAttribute_get_linked (a : CloseApproach) (n : NearEarthObject) (target : string) :
  neo a = Some n ->
  target ∈ ["time"; "distance"; "velocity"; "diameter"; "hazardous"] ->
  GetAttribute_get a target = Ok (spec_attribute a n target).
Proof.
  intros Hn Ht. unfold GetAttribute_get, neo_object. rewrite Hn.
  list_cases Ht; reflexivity.
Qed.

Lemma spec_target_range (k : string) :
  k ∈ option_names ->
  spec_target k ∈ ["time"; "distance"; "velocity"; "diameter"; "hazardous"].
Proof. intros H. option_cases H; vm_compute; list_member. Qed.

Lemma call_GetAttribute (o : binop) (v : pyval) (attr : string)
    (a : CloseApproach) (attr_interest : string) :
  call (GetAttribute_init o v attr) a attr_interest
  = (x ← GetAttribute_get a attr_interest; o x v).
Proof. reflexivity. Qed.

Lemma set_options_elem (args : list (string * pyval)) (k : string) (v : pyval) :
  (k, v) ∈ args -> is_not_None v = true -> (k, v) ∈ set_options args.
Proof.
  intros Hin Hv. unfold set_options. apply list_elem_of_In, filter_In.
  split; [by apply list_elem_of_In | done].
Qed.

(** C1: every one of the ten options that is given a value other than
    [None], [False] included, contributes exactly one predicate, built with
    the operator and paired with the target attribute of the fixed table,
    in the order of the signature, and the options given [None] contribute
    nothing; called on a linked record with its attribute name, such a
    predicate compares the table's attribute (for [time], its date part)
    with the option's value. *)
Theorem create_filters_emits
    (date start_date end_date distance_min distance_max velocity_min
     velocity_max diameter_min diameter_max hazardous : pyval)
    (a : CloseApproach) (n : NearEarthObject) (Hlinked : neo a = Some n) :
  let options :=
    [("date", date); ("start_date", start_date); ("end_date", end_date);
     ("distance_min", distance_min); ("distance_max", distance_max);
     ("velocity_min", velocity_min); ("velocity_max", velocity_max);
     ("diameter_min", diameter_min); ("diameter_max", diameter_max);
     ("hazardous", hazardous)] in
  exists res attrs,
    create_filters date start_date end_date distance_min distance_max
      velocity_min velocity_max diameter_min diameter_max hazardous
    = Ok (res, attrs)
    /\ length res = length attrs
    /\ zip res attrs = flat_map spec_emitted options
    /\ (forall k v, (k, v) ∈ options -> v <> PyNone ->
          (GetAttribute_init (spec_operator k) v (spec_target k), spec_target k)
          ∈ zip res attrs)
    /\ forall f attr, (f, attr) ∈ zip res attrs ->
         exists k v, (k, v) ∈ options /\ v <> PyNone /\ attr = spec_target k
           /\ f = GetAttribute_init (spec_operator k) v attr
           /\ call f a attr = spec_operator k (spec_attribute a n attr) v.
Proof.
  intros options.
  change options with (spec_options date start_date end_date distance_min distance_max
    velocity_min velocity_max diameter_min diameter_max hazardous).
  rewrite <- locals_spec_options.
  set (args := locals date start_date end_date distance_min distance_max
    velocity_min velocity_max diameter_min diameter_max hazardous).
  eexists _, _. split; [apply create_filters_eq |].
  fold args. split; [by rewrite !length_map |].
  rewrite zip_map_same. split; [apply emitted_flat_map |]. split.
  - intros k v Hkv Hv.
    apply (list_elem_of_fmap_2 (fun kv => (mk_pred kv, spec_target kv.1)) _ (k, v)).
    apply set_options_elem; [done | by destruct v].
  - intros f attr Hin. apply list_elem_of_fmap in Hin as [[k v] [Heq Hkv]].
    injection Heq as -> ->. unfold set_options in Hkv.
    apply list_elem_of_In, filter_In in Hkv as [Hkv Hv].
    apply list_elem_of_In in Hkv.
    assert (Hk : k ∈ option_names).
    { pose proof (locals_names date start_date end_date distance_min distance_max
        velocity_min velocity_max diameter_min diameter_max hazardous) as HF.
      rewrite Forall_forall in HF. apply (HF (k, v)), Hkv. }
    exists k, v. repeat split; try done.
    + intros ->. discriminate.
    + unfold mk_pred; simpl. rewrite call_GetAttribute.
      by rewrite (GetAttribute_get_linked a n _ Hlinked (spec_target_range k Hk)).
Qed.

Lemma islice_accepted {A : Type} (seq : list A) (n : Z) :
  0 <= n <= sys_maxsize -> islice seq (Some n) = Ok (take (Z.to_nat n) seq).
Proof.
  intros Hn. unfold islice.
  destruct (n <? 0) eqn:Hneg; [apply Z.ltb_lt in Hneg; lia |].
  destruct (sys_maxsize <? n) eqn:Hbig; [apply Z.ltb_lt in Hbig; lia | done].
Qed.

Lemma limit_positive {A : Type} (seq : list A) (n : Z) :
  0 < n <= sys_maxsize -> limit seq (Some n) = Ok (take (Z.to_nat n) seq).
Proof.
  intros Hn. unfold limit.
  destruct (decide (Some n = Some 0)) as [Heq | _]; [injection Heq; lia |].
  apply islice_accepted. lia.
Qed.

(** C2, as stated, fails: a positive bound above [sys.maxsize] yields no
    items at all, [islice] rejects it with [ValueError]. *)
Lemma limit_above_maxsize :
  0 < 2 ^ 63
  /\ limit [1; 2; 3] (Some (2 ^ 63)) = Raise ValueError
  /\ ~ (exists out, limit [1; 2; 3] (Some (2 ^ 63)) = Ok out
                    /\ length out = Nat.min (Z.to_nat (2 ^ 63)) (length [1; 2; 3])).
Proof.
  split; [reflexivity |]. split; [reflexivity |].
  intros (out & H & _). discriminate H.
Qed.

(** C2, amended: for a positive [n] up to [sys.maxsize] the limiter yields
    the first [min n (length seq)] items of [seq], in their order; for [0]
    and for [None] it yields all of [seq]. *)
Theorem limit_yields {A : Type} (seq : list A) :
  (forall n : Z, 0 < n -> n <= sys_maxsize ->
     exists out, limit seq (Some n) = Ok out
       /\ out = take (Z.to_nat n) seq
       /\ out `prefix_of` seq
       /\ length out = Nat.min (Z.to_nat n) (length seq))
  /\ limit seq (Some 0) = Ok seq
  /\ limit seq None = Ok seq.
Proof.
  split; [| split; reflexivity].
  intros n Hn Hmax. exists (take (Z.to_nat n) seq).
  split; [apply limit_positive; lia |]. repeat split.
  - apply prefix_take.
  - apply length_take.
Qed.

Lemma is_not_None_false (v : pyval) : is_not_None v = false -> v = PyNone.
Proof. by destruct v. Qed.

Lemma set_options_nil (args : list (string * pyval)) :
  set_options args = [] -> Forall (fun kv => is_not_None kv.2 = false) args.
Proof.
  unfold set_options. induction args as [| kv args IH]; simpl; [constructor |].
  destruct (is_not_None kv.2) eqn:E; [discriminate |].
  intros H. constructor; [done | by apply IH].
Qed.

Lemma matches_nil (a : CloseApproach) : matches [] a = Ok true.
Proof. reflexivity. Qed.

Lemma query_with_nil (records : list CloseApproach) :
  query_with [] records = Ok records.
Proof.
  induction records as [| a records IH]; simpl; [done |].
  by rewrite IH.
Qed.

(** C3: with every option unset the builder returns the empty collection;
    the empty collection is returned in no other case; it lets every record
    through, so that a collection letting no record of a non-empty store
    through is never the empty one. *)
Theorem create_filters_unset :
  create_filters PyNone PyNone PyNone PyNone PyNone PyNone PyNone PyNone PyNone PyNone
  = Ok ([], [])
  /\ (forall v1 v2 v3 v4 v5 v6 v7 v8 v9 v10 attrs,
        create_filters v1 v2 v3 v4 v5 v6 v7 v8 v9 v10 = Ok ([], attrs) ->
        [v1; v2; v3; v4; v5; v6; v7; v8; v9; v10] = replicate 10 PyNone)
  /\ (forall records, query records ([], []) = Ok records)
  /\ (forall records filters,
        records <> [] -> query records filters = Ok [] -> fst filters <> []).
Proof.
  split; [reflexivity |]. split; [| split].
  - intros v1 v2 v3 v4 v5 v6 v7 v8 v9 v10 attrs H.
    pose proof (create_filters_eq v1 v2 v3 v4 v5 v6 v7 v8 v9 v10) as E.
    cbv zeta in E. rewrite E in H. clear E.
    assert (H' : set_options (locals v1 v2 v3 v4 v5 v6 v7 v8 v9 v10) = []).
    { apply (fmap_nil_inv mk_pred). change (fmap mk_pred) with (map mk_pred). congruence. }
    clear H. apply set_options_nil in H'. rename H' into H.
    unfold locals in H. repeat (apply Forall_cons in H as [?%is_not_None_false H]).
    simpl in *. by subst.
  - intros records. apply query_with_nil.
  - intros records [res attrs] Hne Hq Hres. simpl in Hres. subst res.
    unfold query in Hq. simpl in Hq.
    rewrite query_with_nil in Hq. by injection Hq.
Qed.

(** C6: the base class has no resolution rule: its [get] raises
    [UnsupportedCriterionError] for every record and attribute name, and
    calling a filter of the base class hands that error to the caller. *)
Theorem AttributeFilter_unsupported (o : binop) (v : pyval)
    (approach : CloseApproach) (attr_interest : string) :
  AttributeFilter_get approach attr_interest = Raise UnsupportedCriterionError
  /\ get (cls (AttributeFilter_init o v)) approach attr_interest
     = Raise UnsupportedCriterionError
  /\ call (AttributeFilter_init o v) approach attr_interest
     = Raise UnsupportedCriterionError.
Proof. repeat split. Qed.

(** C8: the object serializer binds [res] to a dictionary with the keys
    [designation], [name], [diameter_km] and [potentially_hazardous], and
    returns [None]. *)
Theorem NearEarthObject_serialize_returns_None (self : NearEarthObject) :
  NearEarthObject_serialize self = PyNone
  /\ exists res,
       f_locals (NearEarthObject_serialize_frame self) = [("res", res)]
       /\ map fst res = ["designation"; "name"; "diameter_km"; "potentially_hazardous"].
Proof. split; [reflexivity |]. eexists. split; reflexivity. Qed.

(** C10: the [attr] handed to the constructor of [GetAttribute] has no
    effect: two filters built from the same operator and reference value
    are the same filter, and give the same result on every record and
    every attribute name given at call time. *)
Theorem GetAttribute_attr_irrelevant (o : binop) (v : pyval) (attr1 attr2 : string)
    (approach : CloseApproach) (attr_interest : string) :
  GetAttribute_init o v attr1 = GetAttribute_init o v attr2
  /\ call (GetAttribute_init o v attr1) approach attr_interest
     = call (GetAttribute_init o v attr2) approach attr_interest
  /\ call (GetAttribute_init o v attr1) approach attr_interest
     = (x ← GetAttribute_get approach attr_interest; o x v).
Proof. repeat split. Qed.

Lemma mk_pred_cls (items : list (string * pyval)) (f : AttributeFilter) :
  f ∈ map mk_pred items -> cls f = GetAttribute_cls.
Proof. intros H. by apply list_elem_of_fmap in H as [kv [-> _]]. Qed.

(** C4: for a predicate the builder produced and a linked record,
    [hazardous] and [diameter] are read from the linked object, and every
    other attribute from the record itself: [distance] and [velocity] as
    they are, [time] as its date. *)
Theorem attribute_resolution
    (v1 v2 v3 v4 v5 v6 v7 v8 v9 v10 : pyval)
    (res : list AttributeFilter) (attrs : list string) (f : AttributeFilter)
    (a : CloseApproach) (n : NearEarthObject)
    (Hbuilt : create_filters v1 v2 v3 v4 v5 v6 v7 v8 v9 v10 = Ok (res, attrs))
    (Hf : f ∈ res)
    (Hlinked : neo a = Some n) :
  get (cls f) a "hazardous" = Ok (PyBool (hazardous n))
  /\ get (cls f) a "diameter" = Ok (PyFloat (diameter n))
  /\ get (cls f) a "time" = Ok (PyDate (datetime_date (time a)))
  /\ get (cls f) a "distance" = Ok (PyFloat (distance a))
  /\ get (cls f) a "velocity" = Ok (PyFloat (velocity a))
  /\ (forall attr_interest,
        attr_interest ∈ ["hazardous"; "diameter"] ->
        get (cls f) a attr_interest = getattr (ObjNeo n) attr_interest)
  /\ (forall attr_interest,
        attr_interest ∉ ["hazardous"; "diameter"] -> attr_interest <> "time" ->
        get (cls f) a attr_interest = getattr (ObjApproach a) attr_interest).
Proof.
  pose proof (create_filters_eq v1 v2 v3 v4 v5 v6 v7 v8 v9 v10) as E.
  cbv zeta in E. rewrite E in Hbuilt. clear E.
  assert (Hc : cls f = GetAttribute_cls).
  { apply (mk_pred_cls (set_options (locals v1 v2 v3 v4 v5 v6 v7 v8 v9 v10))).
    congruence. }
  clear Hbuilt Hf. rewrite Hc. cbn [get].
  unfold GetAttribute_get, neo_object. rewrite Hlinked.
  repeat split; try reflexivity.
  - intros attr_interest Hin.
    destruct (decide (attr_interest ∈ ["hazardous"; "diameter"])); [| done].
    list_cases Hin; reflexivity.
  - intros attr_interest Hnin Hnt.
    destruct (decide (attr_interest ∈ ["hazardous"; "diameter"])); [done |].
    destruct (getattr (ObjApproach a) attr_interest) as [x | e]; [| reflexivity].
    rewrite bind_Ok.
    by destruct (decide (attr_interest = "time")).
Qed.

Lemma matches_fails (preds : list (AttributeFilter * string)) (a : CloseApproach)
    (f : AttributeFilter) (attr : string) :
  (f, attr) ∈ preds -> call f a attr = Ok (PyBool false) ->
  matches preds a <> Ok true.
Proof.
  intros Hin Hcall. induction preds as [| [g b] preds IH]; [by apply elem_of_nil in Hin |].
  simpl. apply elem_of_cons in Hin as [Heq | Hin].
  - injection Heq as <- <-. by rewrite Hcall.
  - destruct (call g a b) as [r |]; simpl; [| done].
    destruct (truthy r); [by apply IH | done].
Qed.

Lemma query_with_sound (preds : list (AttributeFilter * string))
    (records out : list CloseApproach) (a : CloseApproach) :
  query_with preds records = Ok out -> a ∈ out -> matches preds a = Ok true.
Proof.
  revert out. induction records as [| r records IH]; simpl; intros out H Hin.
  - injection H as <-. by apply elem_of_nil in Hin.
  - apply bind_inv in H as [keep [Hk H]].
    apply bind_inv in H as [rest [Hr H]]. injection H as <-.
    destruct keep.
    + apply elem_of_cons in Hin as [-> | Hin]; [done | by eapply IH].
    + by eapply IH.
Qed.

Lemma nan_ge (v : pyval) :
  is_Some (as_number v) -> operator_ge (PyFloat nan) v = Ok (PyBool false).
Proof. intros [x Hx]. by destruct v. Qed.

Lemma nan_le (v : pyval) :
  is_Some (as_number v) -> operator_le (PyFloat nan) v = Ok (PyBool false).
Proof. intros [x Hx]. by destruct v. Qed.

Lemma nan_eq (v : pyval) : operator_eq (PyFloat nan) v = Ok (PyBool false).
Proof. destruct v as [| [] | | | | |]; reflexivity. Qed.

Lemma number_not_None (v : pyval) : is_Some (as_number v) -> is_not_None v = true.
Proof. intros [x Hx]. by destruct v. Qed.


Lemma diameter_pred_fails (a : CloseApproach) (n : NearEarthObject) (k : string) (v : pyval) :
  neo a = Some n -> diameter n = nan -> is_Some (as_number v) ->
  k ∈ ["diameter_min"; "diameter_max"] ->
  call (mk_pred (k, v)) a (spec_target k) = Ok (PyBool false).
Proof.
  intros Hn Hd Hv Hk. unfold mk_pred. rewrite call_GetAttribute.
  assert (Ht : spec_target k = "diameter").
  { clear -Hk. list_cases Hk; reflexivity. }
  rewrite Ht, (GetAttribute_get_linked a n "diameter" Hn) by list_member.
  rewrite bind_Ok. change (spec_attribute a n "diameter") with (PyFloat (diameter n)).
  rewrite Hd. simpl fst; simpl snd.
  list_cases Hk.
  - by apply nan_ge.
  - by apply nan_le.
Qed.

(** C5: a row with an empty diameter field gives an object whose diameter
    is NaN; NaN is equal to no filter value; a [diameter_min] or
    [diameter_max] predicate with a numeric value is false on a record
    linked to that object, and no query whose criteria set one of the two
    returns the record. *)
Theorem unknown_diameter_excluded (info : gmap string string) (pdes nm pha : string)
    (Hpdes : info !! "pdes" = Some pdes) (Hname : info !! "name" = Some nm)
    (Hdiam : info !! "diameter" = Some "") (Hpha : info !! "pha" = Some pha) :
  exists n,
    NearEarthObject_init info = Ok n
    /\ diameter n = nan
    /\ (forall v, operator_eq (PyFloat (diameter n)) v = Ok (PyBool false))
    /\ forall a, neo a = Some n ->
         (forall v attr, is_Some (as_number v) ->
            call (GetAttribute_init operator_ge v attr) a "diameter" = Ok (PyBool false)
            /\ call (GetAttribute_init operator_le v attr) a "diameter" = Ok (PyBool false))
         /\ (forall v,
               is_Some (as_number v) ->
               query [a] ([GetAttribute_init operator_ge v "diameter"], ["diameter"]) = Ok []
               /\ query [a] ([GetAttribute_init operator_le v "diameter"], ["diameter"]) = Ok [])
         /\ (forall v1 v2 v3 v4 v5 v6 v7 v8 v9 v10 res attrs records out,
               is_Some (as_number v8) \/ is_Some (as_number v9) ->
               create_filters v1 v2 v3 v4 v5 v6 v7 v8 v9 v10 = Ok (res, attrs) ->
               query records (res, attrs) = Ok out ->
               a ∉ out).
Proof.
  eexists. split.
  { unfold NearEarthObject_init, getitem. rewrite Hpdes, Hname, Hdiam, Hpha.
    reflexivity. }
  cbn [diameter]. split; [reflexivity |]. split; [apply nan_eq |].
  intros a Hn.
  set (n := {| designation := pdes |}) in *.
  assert (Hd : diameter n = nan) by reflexivity.
  assert (Hmin : forall v, is_Some (as_number v) ->
            call (mk_pred ("diameter_min", v)) a "diameter" = Ok (PyBool false)).
  { intros v Hv. apply (diameter_pred_fails a n "diameter_min" v Hn Hd Hv). list_member. }
  assert (Hmax : forall v, is_Some (as_number v) ->
            call (mk_pred ("diameter_max", v)) a "diameter" = Ok (PyBool false)).
  { intros v Hv. apply (diameter_pred_fails a n "diameter_max" v Hn Hd Hv). list_member. }
  split; [| split].
  - intros v attr Hv. split; [apply (Hmin v Hv) | apply (Hmax v Hv)].
  - intros v Hv. unfold query; simpl.
    pose proof (Hmin v Hv) as H1. pose proof (Hmax v Hv) as H2.
    unfold mk_pred in H1, H2. simpl in H1, H2.
    change (spec_operator "diameter_min") with operator_ge in H1.
    change (spec_operator "diameter_max") with operator_le in H2.
    rewrite !call_GetAttribute in *. by rewrite H1, H2.
  - intros v1 v2 v3 v4 v5 v6 v7 v8 v9 v10 res attrs records out Hv Hc Hq Hin.
    pose proof (create_filters_eq v1 v2 v3 v4 v5 v6 v7 v8 v9 v10) as E.
    cbv zeta in E. rewrite E in Hc. clear E.
    set (items := set_options (locals v1 v2 v3 v4 v5 v6 v7 v8 v9 v10)) in *.
    assert (Hres : res = map mk_pred items) by congruence.
    assert (Hattrs : attrs = map (fun kv => spec_target kv.1) items) by congruence.
    subst res attrs. clear Hc.
    unfold query in Hq. cbn [fst snd] in Hq. rewrite zip_map_same in Hq.
    apply (query_with_sound _ _ _ a Hq) in Hin. revert Hin.
    destruct Hv as [Hv | Hv].
    + eapply (matches_fails _ a (mk_pred ("diameter_min", v8)) "diameter");
        [| by apply Hmin].
      apply (list_elem_of_fmap_2 (fun kv => (mk_pred kv, spec_target kv.1))
               _ ("diameter_min", v8)).
      subst items; apply set_options_elem; [unfold locals; list_member | by apply number_not_None].
    + eapply (matches_fails _ a (mk_pred ("diameter_max", v9)) "diameter");
        [| by apply Hmax].
      apply (list_elem_of_fmap_2 (fun kv => (mk_pred kv, spec_target kv.1))
               _ ("diameter_max", v9)).
      subst items; apply set_options_elem; [unfold locals; list_member | by apply number_not_None].
Qed.

Lemma binary_round_aux_sign (m e : Z) (l : location) :
  sign_bit (binary_round_aux prec emax false m e l) = false.
Proof.
  unfold binary_round_aux.
  destruct (shr_fexp prec emax m e l) as [mrs e1].
  destruct (shr_fexp prec emax _ e1 loc_Exact) as [mrs' e2].
  destruct (shr_m mrs'); [done | | done].
  by destruct (e2 <=? emax - prec).
Qed.

Lemma decimal_to_float_sign (m e10 : Z) :
  sign_bit (decimal_to_float false m e10) = false.
Proof.
  unfold decimal_to_float. destruct m as [| p | p]; [done | | done].
  destruct (0 <=? e10).
  - destruct (Z.pos p * 10 ^ e10); [done | | done].
    unfold binary_round. destruct (shl_align _ _ _). apply binary_round_aux_sign.
  - destruct (SFdiv_core_binary _ _ _ _ _ _) as [[q e] l].
    apply binary_round_aux_sign.
Qed.

Lemma read_floatnumber_sign (s : list ascii) (f : float64) :
  read_floatnumber false s = Some f -> sign_bit f = false.
Proof.
  unfold read_floatnumber.
  destruct (digitpart s) as [ip s1].
  destruct (match s1 with "."%char :: s1' => digitpart s1' | _ => ([], s1) end) as [fp s2].
  destruct (ip ++ fp); [done |].
  destruct (read_exponent s2) as [[ex [| c r]] |]; [| done | done].
  intros [= <-]. apply decimal_to_float_sign.
Qed.

Lemma float_of_str_sign (s : string) (f : float64) :
  has_minus_sign s = false -> float_of_str s = Ok f -> sign_bit f = false.
Proof.
  unfold has_minus_sign, float_of_str.
  destruct (read_sign (strip_by c_isspace (float_text s))) as [sign body].
  simpl. intros ->.
  destruct (decide _); [by intros [= <-] |].
  destruct (decide _); [by intros [= <-] |].
  destruct (read_floatnumber false body) as [g |] eqn:E; [| done].
  intros [= <-]. by eapply read_floatnumber_sign.
Qed.

Lemma len_zero (s : string) : len s = 0 <-> s = "".
Proof. unfold len. destruct s; simpl; split; intros H; (done || lia). Qed.

Lemma sign_bit_false (f : float64) :
  sign_bit f = false ->
  is_nan f = true \/ is_nonneg_number f = true \/ f = S754_infinity false.
Proof. destruct f as [s | s | | s m e]; simpl; intros H; subst; auto. Qed.

(** C7, as stated, fails: a row whose diameter field reads [-1] gives an
    object with the diameter -1.0, which is neither the sentinel nor a
    non-negative number. *)
Lemma negative_diameter_stored :
  NearEarthObject_init negative_row = Ok negative_neo
  /\ diameter negative_neo = S754_finite true 4503599627370496 (-52)
  /\ ~ diameter_invariant negative_neo.
Proof.
  split; [reflexivity |]. split; [reflexivity |].
  intros [H | H]; discriminate H.
Qed.

(** C7, amended: an object constructed from a row always has a diameter
    and a boolean hazard flag.  The diameter is NaN when the row's field is
    empty and otherwise the float its text denotes; unless that text, once
    the white space that [float] skips in front of it is set aside, opens
    with a minus sign, it is NaN, a non-negative number or plus infinity.
    The flag is [true] exactly when the [pha] field is [Y]. *)
Theorem NearEarthObject_init_fields (info : gmap string string) (n : NearEarthObject)
    (Hinit : NearEarthObject_init info = Ok n) :
  exists d pha,
    info !! "diameter" = Some d
    /\ info !! "pha" = Some pha
    /\ (d = "" -> diameter n = nan)
    /\ (d <> "" -> float_of_str d = Ok (diameter n))
    /\ (has_minus_sign d = false ->
        is_nan (diameter n) = true
        \/ is_nonneg_number (diameter n) = true
        \/ diameter n = S754_infinity false)
    /\ hazardous n = bool_decide (pha = "Y").
Proof.
  unfold NearEarthObject_init, getitem in Hinit.
  destruct (info !! "pdes") as [pdes |]; [| discriminate].
  destruct (info !! "name") as [nm |]; [| discriminate].
  destruct (info !! "diameter") as [d |]; [| discriminate].
  rewrite !bind_Ok in Hinit.
  apply bind_inv in Hinit as [x [Hx Hinit]].
  destruct (info !! "pha") as [pha |]; [| discriminate].
  rewrite bind_Ok in Hinit. injection Hinit as <-. cbn [diameter hazardous].
  exists d, pha. do 2 (split; [reflexivity |]).
  split; [| split; [| split]].
  - intros ->. by injection Hx.
  - intros Hd. destruct (decide (len d = 0)) as [H0 | _]; [| done].
    by apply len_zero in H0.
  - intros Hs. apply sign_bit_false.
    destruct (decide (len d = 0)); [by injection Hx as <- |].
    by apply (float_of_str_sign d).
  - by destruct (decide (pha = "Y")) as [-> |];
      [rewrite bool_decide_eq_true_2 | rewrite bool_decide_eq_false_2].
Qed.


(** ** The scenarios of the specification, evaluated *)

Example scenario_not_hazardous :
  (filters ← create_filters PyNone PyNone PyNone PyNone PyNone PyNone PyNone PyNone
               PyNone (PyBool false);
   query [eros_approach] filters) = Ok [eros_approach]
  /\ (filters ← create_filters PyNone PyNone PyNone PyNone PyNone PyNone PyNone PyNone
                  PyNone (PyBool true);
      query [eros_approach] filters) = Ok [].
Proof. split; reflexivity. Qed.

Example scenario_start_date :
  (filters ← create_filters PyNone (PyDate (mk_date 2020 3 1)) PyNone PyNone PyNone
               PyNone PyNone PyNone PyNone PyNone;
   query [approach_on (mk_date 2020 1 1); approach_on (mk_date 2020 6 1)] filters)
  = Ok [approach_on (mk_date 2020 6 1)].
Proof. reflexivity. Qed.

Example scenario_distance_velocity :
  (filters ← create_filters PyNone PyNone PyNone PyNone half_au four_km_s PyNone
               PyNone PyNone PyNone;
   query [eros_approach] filters) = Ok [].
Proof. reflexivity. Qed.

Example scenario_limit :
  limit ten_approaches (Some 3) = Ok (take 3 ten_approaches)
  /\ limit ten_approaches None = Ok ten_approaches
  /\ length ten_approaches = 10%nat.
Proof. repeat split. Qed.

Example unknown_diameter_filtered_out :
  NearEarthObject_init unknown_row = Ok unknown_neo
  /\ (filters ← create_filters PyNone PyNone PyNone PyNone PyNone PyNone PyNone
                  (PyFloat f64_zero) PyNone PyNone;
      query [unknown_approach; eros_approach] filters) = Ok [eros_approach].
Proof. split; reflexivity. Qed.

(** A record that was never linked has no object to read [hazardous] or
    [diameter] from. *)
Lemma unlinked_get (a : CloseApproach) (attr_interest : string) :
  neo a = None -> attr_interest ∈ ["hazardous"; "diameter"] ->
  GetAttribute_get a attr_interest = Raise AttributeError.
Proof.
  intros Hn Hin. unfold GetAttribute_get, neo_object. rewrite Hn.
  list_cases Hin; reflexivity.
Qed.

Lemma CloseApproach_init_unlinked (cd_to_datetime : string -> result datetime)
    (info : gmap string string) (a : CloseApproach) :
  CloseApproach_init cd_to_datetime info = Ok a -> neo a = None.
Proof.
  unfold CloseApproach_init. intros H.
  repeat (apply bind_inv in H as [? [_ H]]). by injection H as <-.
Qed.

(** ** Concrete instances *)

Lemma create_filters_emits_witness :
  neo eros_approach = Some eros
  /\ exists res attrs,
       create_filters PyNone PyNone PyNone PyNone half_au four_km_s
         PyNone PyNone PyNone (PyBool false) = Ok (res, attrs)
       /\ zip res attrs
          = [(GetAttribute_init operator_le half_au "distance", "distance");
             (GetAttribute_init operator_ge four_km_s "velocity", "velocity");
             (GetAttribute_init operator_eq (PyBool false) "hazardous", "hazardous")].
Proof.
  split; [reflexivity |].
  destruct (create_filters_emits PyNone PyNone PyNone PyNone half_au four_km_s
              PyNone PyNone PyNone (PyBool false) eros_approach eros eq_refl)
    as (res & attrs & Hc & _ & Hz & _).
  exists res, attrs. split; [exact Hc | exact Hz].
Defined.

Lemma limit_yields_witness :
  0 < 3 /\ 3 <= sys_maxsize /\ limit [1; 2; 3; 4; 5] (Some 3) = Ok [1; 2; 3].
Proof.
  split; [reflexivity |].
  split; [discriminate |].
  destruct (limit_yields [1; 2; 3; 4; 5]) as [H _].
  assert (Hmax : 3 <= sys_maxsize) by discriminate.
  destruct (H 3 eq_refl Hmax) as (out & Hl & Ho & _).
  rewrite Hl, Ho. reflexivity.
Defined.

Lemma create_filters_unset_witness :
  let filters := ([GetAttribute_init operator_eq (PyBool true) "hazardous"],
                  ["hazardous"]) in
  [eros_approach] <> []
  /\ query [eros_approach] filters = Ok []
  /\ fst filters <> [].
Proof.
  intros filters.
  assert (Hne : [eros_approach] <> []) by discriminate.
  assert (Hq : query [eros_approach] filters = Ok []) by reflexivity.
  split; [exact Hne |]. split; [exact Hq |].
  destruct create_filters_unset as (_ & _ & _ & H).
  exact (H [eros_approach] filters Hne Hq).
Defined.

Lemma attribute_resolution_witness :
  let f := GetAttribute_init operator_eq (PyBool false) "hazardous" in
  create_filters PyNone PyNone PyNone PyNone PyNone PyNone PyNone PyNone PyNone
    (PyBool false) = Ok ([f], ["hazardous"])
  /\ f ∈ [f]
  /\ neo eros_approach = Some eros
  /\ get (cls f) eros_approach "hazardous" = Ok (PyBool false)
  /\ get (cls f) eros_approach "time" = Ok (PyDate (mk_date 2025 11 30)).
Proof.
  intros f.
  assert (Hc : create_filters PyNone PyNone PyNone PyNone PyNone PyNone PyNone PyNone
                 PyNone (PyBool false) = Ok ([f], ["hazardous"])) by reflexivity.
  assert (Hf : f ∈ [f]) by apply list_elem_of_here.
  assert (Hl : neo eros_approach = Some eros) by reflexivity.
  destruct (attribute_resolution _ _ _ _ _ _ _ _ _ _ _ _ f eros_approach eros Hc Hf Hl)
    as (Hh & _ & Ht & _).
  repeat (split; [assumption |]). exact Ht.
Defined.

Lemma unknown_diameter_excluded_witness :
  unknown_row !! "pdes" = Some "2019 XY"
  /\ unknown_row !! "name" = Some ""
  /\ unknown_row !! "diameter" = Some ""
  /\ unknown_row !! "pha" = Some "Y"
  /\ exists n, NearEarthObject_init unknown_row = Ok n /\ diameter n = nan.
Proof.
  repeat (split; [reflexivity |]).
  destruct (unknown_diameter_excluded unknown_row "2019 XY" "" "Y"
              eq_refl eq_refl eq_refl eq_refl) as (n & Hn & Hd & _).
  exists n. split; [exact Hn | exact Hd].
Defined.

Lemma NearEarthObject_init_fields_witness :
  NearEarthObject_init eros_row = Ok eros
  /\ exists d pha,
       eros_row !! "diameter" = Some d /\ eros_row !! "pha" = Some pha
       /\ float_of_str d = Ok (diameter eros)
       /\ hazardous eros = bool_decide (pha = "Y").
Proof.
  split; [reflexivity |].
  destruct (NearEarthObject_init_fields eros_row eros eq_refl)
    as (d & pha & Hd & Hp & _ & Hf & _ & Hh).
  exists d, pha. repeat (split; [assumption |]). split; [| exact Hh].
  apply Hf. intros ->. vm_compute in Hd. discriminate Hd.
Defined.


(** * Further properties of the code *)

(** ** The limiter *)

(** X1: a negative bound is not treated as "no limit": for every sequence,
    also the empty one, [limit] raises [ValueError]. *)
Theorem limit_negative {A : Type} (seq : list A) (n : Z) (Hn : n < 0) :
  limit seq (Some n) = Raise ValueError.
Proof.
  unfold limit, islice.
  destruct (decide (Some n = Some 0)) as [Heq | _]; [injection Heq; lia |].
  destruct (n <? 0) eqn:E; [done | apply Z.ltb_ge in E; lia].
Qed.

(** X2: for positive bounds up to [sys.maxsize], limiting twice is limiting
    once by the smaller bound, and an unlimited stage ([None] or [0]) on
    either side changes nothing. *)
Theorem limit_limit {A : Type} (seq : list A) (n m : Z)
    (Hn : 0 < n <= sys_maxsize) (Hm : 0 < m <= sys_maxsize) :
  (out ← limit seq (Some n); limit out (Some m)) = limit seq (Some (Z.min n m))
  /\ (out ← limit seq (Some n); limit out None) = limit seq (Some n)
  /\ (out ← limit seq (Some n); limit out (Some 0)) = limit seq (Some n)
  /\ (out ← limit seq None; limit out (Some m)) = limit seq (Some m)
  /\ (out ← limit seq (Some 0); limit out (Some m)) = limit seq (Some m).
Proof.
  assert (Hmin : 0 < Z.min n m <= sys_maxsize) by lia.
  rewrite (limit_positive seq n Hn), (limit_positive seq m Hm),
    (limit_positive seq _ Hmin), !bind_Ok.
  split; [| by repeat split; try apply limit_positive].
  rewrite (limit_positive _ m Hm), take_take. do 2 f_equal. lia.
Qed.

(** X3: for a bound that is accepted ([None], or from 0 to [sys.maxsize])
    the result is a prefix of the sequence, and it is the whole sequence
    exactly when the bound is [None], [0], or at least the length. *)
Theorem limit_truncates {A : Type} (seq : list A) (n : option Z)
    (Hn : forall k, n = Some k -> 0 <= k <= sys_maxsize) :
  exists out,
    limit seq n = Ok out
    /\ out `prefix_of` seq
    /\ (out = seq <-> n = None \/ n = Some 0 \/ exists k, n = Some k /\ Z.of_nat (length seq) <= k).
Proof.
  destruct n as [k |].
  - pose proof (Hn k eq_refl) as Hk.
    destruct (decide (k = 0)) as [-> | Hk0].
    + exists seq. repeat split; auto.
    + exists (take (Z.to_nat k) seq). split; [apply limit_positive; lia |].
      split; [apply prefix_take |]. split.
      * intros Heq. right; right. exists k. split; [done |].
        assert (Hlen : length (take (Z.to_nat k) seq) = length seq) by by rewrite Heq.
        rewrite length_take in Hlen. lia.
      * intros [H | [H | (k' & H & Hle)]]; [done | injection H; lia |].
        injection H as <-. apply take_ge. lia.
  - exists seq. repeat split; auto.
Qed.

(** ** Constructing a near-Earth object *)

Lemma float_of_str_raises (s : string) (e : exn) :
  float_of_str s = Raise e -> e = ValueError.
Proof.
  unfold float_of_str. destruct (read_sign _) as [sign body].
  destruct (decide _); [done |]. destruct (decide _); [done |].
  destruct (read_floatnumber sign body); [done | by intros [= <-]].
Qed.

(** The diameter a field's text stands for. *)
Lemma NearEarthObject_init_unfold (info : gmap string string) :
  NearEarthObject_init info =
  match info !! "pdes", info !! "name", info !! "diameter" with
  | Some pdes, Some nm, Some dm =>
      match (if decide (len dm = 0) then Ok nan else float_of_str dm) with
      | Ok d =>
          match info !! "pha" with
          | Some pha =>
              Ok {| designation := pdes;
                    name := if decide (len nm = 0) then None else Some nm;
                    diameter := d;
                    hazardous := if decide (pha = "Y") then true else false;
                    approaches := [] |}
          | None => Raise KeyError
          end
      | Raise e => Raise e
      end
  | _, _, _ => Raise KeyError
  end.
Proof.
  unfold NearEarthObject_init, getitem.
  destruct (info !! "pdes"); [| done]. destruct (info !! "name"); [| done].
  destruct (info !! "diameter") as [dm |]; [| done]. rewrite !bind_Ok.
  destruct (if decide (len dm = 0) then Ok nan else float_of_str dm); [| done].
  rewrite bind_Ok. by destruct (info !! "pha").
Qed.

(** The body of the constructor returns exactly when the four fields are
    there and the diameter is empty or a number that [float] reads. *)
Lemma NearEarthObject_init_succeeds_iff (info : gmap string string) :
  (exists n, NearEarthObject_init info = Ok n)
  <-> (is_Some (info !! "pdes") /\ is_Some (info !! "name") /\ is_Some (info !! "pha")
       /\ exists dm, info !! "diameter" = Some dm
            /\ (dm = "" \/ exists f, float_of_str dm = Ok f)).
Proof.
  rewrite NearEarthObject_init_unfold. split.
  - intros [n H].
    destruct (info !! "pdes"); [| done]. destruct (info !! "name"); [| done].
    destruct (info !! "diameter") as [dm |]; [| done].
    destruct (decide (len dm = 0)) as [H0 | H0].
    + destruct (info !! "pha"); [| done]. repeat split; eauto.
      exists dm. split; [done |]. left. by apply len_zero.
    + destruct (float_of_str dm) as [f |] eqn:Ef; [| done].
      destruct (info !! "pha"); [| done]. repeat split; eauto.
  - intros ([pdes ->] & [nm ->] & [pha ->] & dm & -> & Hd).
    destruct (decide (len dm = 0)) as [H0 | H0]; [eauto |].
    destruct Hd as [-> | [f ->]]; [done | eauto].
Qed.

Ltac key_or_value :=
  let e := fresh "e" in let He := fresh "He" in
  intros e He; try discriminate He; injection He as <-; auto.

(** What the body of the constructor raises. *)
Lemma NearEarthObject_init_errors (info : gmap string string) :
  (forall e, NearEarthObject_init info = Raise e -> e = KeyError \/ e = ValueError)
  /\ (NearEarthObject_init info = Raise ValueError
      <-> is_Some (info !! "pdes") /\ is_Some (info !! "name")
          /\ exists dm, info !! "diameter" = Some dm /\ dm <> ""
               /\ float_of_str dm = Raise ValueError).
Proof.
  rewrite NearEarthObject_init_unfold.
  destruct (info !! "pdes") as [pdes |]; cycle 1.
  { split; [key_or_value |]. split; [done | by intros [[? ?] _]]. }
  destruct (info !! "name") as [nm |]; cycle 1.
  { split; [key_or_value |]. split; [done | by intros (_ & [? ?] & _)]. }
  destruct (info !! "diameter") as [dm |]; cycle 1.
  { split; [key_or_value |]. split; [done | by intros (_ & _ & ? & ? & _)]. }
  destruct (decide (len dm = 0)) as [H0 | H0].
  - apply len_zero in H0 as ->.
    destruct (info !! "pha"); (split; [key_or_value |]);
      (split; [intros He; discriminate He | intros (_ & _ & ? & [= <-] & ? & _); done]).
  - destruct (float_of_str dm) as [f | e'] eqn:Ef.
    + destruct (info !! "pha"); (split; [key_or_value |]);
        (split; [intros He; discriminate He
                | intros (_ & _ & ? & [= <-] & _ & He); rewrite Ef in He; discriminate He]).
    + pose proof (float_of_str_raises dm e' Ef) as ->.
      split; [key_or_value |]. split; [| done].
      intros _. split; [by eexists |]. split; [by eexists |].
      exists dm. split; [done |]. split; [| done].
      intros ->. by apply H0.
Qed.

(** The body of the constructor reads the four fields only. *)
Lemma NearEarthObject_init_other_fields (info info' : gmap string string)
    (Hagree : forall k, k ∈ neo_fields -> info !! k = info' !! k) :
  NearEarthObject_init info = NearEarthObject_init info'.
Proof.
  rewrite !NearEarthObject_init_unfold.
  rewrite <- (Hagree "pdes"), <- (Hagree "name"), <- (Hagree "diameter"),
    <- (Hagree "pha"); [done | unfold neo_fields; list_member ..].
Qed.

Lemma NearEarthObject_call_self (elm : gmap string string) :
  is_Some (elm !! "self") -> NearEarthObject_call elm = Raise TypeError.
Proof. intros H. unfold NearEarthObject_call. by destruct (decide _). Qed.

Lemma NearEarthObject_call_no_self (elm : gmap string string) :
  elm !! "self" = None -> NearEarthObject_call elm = NearEarthObject_init elm.
Proof.
  intros H. unfold NearEarthObject_call.
  destruct (decide _) as [[x Hx] | _]; [congruence | done].
Qed.

(** X4: on a row whose column names and cells are all strings, the call of
    the constructor succeeds exactly when no column is named [self], the
    four fields [pdes], [name], [diameter] and [pha] are there, and the
    diameter is empty or a number that [float] reads. *)
Theorem NearEarthObject_call_succeeds_iff (elm : gmap string string) :
  (exists n, NearEarthObject_call elm = Ok n)
  <-> (elm !! "self" = None
       /\ is_Some (elm !! "pdes") /\ is_Some (elm !! "name") /\ is_Some (elm !! "pha")
       /\ exists dm, elm !! "diameter" = Some dm
            /\ (dm = "" \/ exists f, float_of_str dm = Ok f)).
Proof.
  destruct (elm !! "self") as [x |] eqn:Hself.
  - rewrite NearEarthObject_call_self by (rewrite Hself; by eexists).
    split; [by intros [n H] | by intros [H _]].
  - rewrite (NearEarthObject_call_no_self elm Hself), NearEarthObject_init_succeeds_iff.
    split; [by intros H | by intros [_ H]].
Qed.

(** X5: on such a row the call raises nothing but [TypeError], [KeyError]
    and [ValueError]: [TypeError] exactly when a column is named [self],
    and [ValueError] exactly when none is, [pdes], [name] and [diameter]
    are there and the diameter is a non-empty text that [float] rejects,
    whether or not [pha] is there. *)
Theorem NearEarthObject_call_errors (elm : gmap string string) :
  (forall e, NearEarthObject_call elm = Raise e ->
             e = TypeError \/ e = KeyError \/ e = ValueError)
  /\ (NearEarthObject_call elm = Raise TypeError <-> is_Some (elm !! "self"))
  /\ (NearEarthObject_call elm = Raise ValueError
      <-> elm !! "self" = None
          /\ is_Some (elm !! "pdes") /\ is_Some (elm !! "name")
          /\ exists dm, elm !! "diameter" = Some dm /\ dm <> ""
               /\ float_of_str dm = Raise ValueError).
Proof.
  destruct (NearEarthObject_init_errors elm) as [Hany Hval].
  destruct (elm !! "self") as [x |] eqn:Hself.
  - rewrite NearEarthObject_call_self by (rewrite Hself; by eexists).
    split; [intros e [= <-]; auto |]. split.
    + split; [by eexists | done].
    + split; [done | by intros [H _]].
  - rewrite (NearEarthObject_call_no_self elm Hself).
    split; [intros e He; destruct (Hany e He); auto |]. split.
    + split; [| by intros [? ?]]. intros He. by destruct (Hany _ He).
    + rewrite Hval. split; [by intros H | by intros [_ H]].
Qed.

(** X6: on such rows nothing matters to the call but the four fields and
    whether a column is named [self]: two rows that agree on both give the
    same object or the same error, whatever their other columns hold. *)
Theorem NearEarthObject_call_other_fields (elm elm' : gmap string string)
    (Hself : is_Some (elm !! "self") <-> is_Some (elm' !! "self"))
    (Hagree : forall k, k ∈ neo_fields -> elm !! k = elm' !! k) :
  NearEarthObject_call elm = NearEarthObject_call elm'.
Proof.
  unfold NearEarthObject_call.
  destruct (decide (is_Some (elm !! "self"))) as [H | H];
    destruct (decide (is_Some (elm' !! "self"))) as [H' | H']; try done.
  - by apply Hself in H.
  - by apply Hself in H'.
  - by apply NearEarthObject_init_other_fields.
Qed.

(** X7: a constructed object keeps the primary designation verbatim, has no
    approaches yet, and never carries an empty name: its name is [None]
    exactly when the [name] field is empty and the field's text otherwise. *)
Theorem NearEarthObject_init_name (info : gmap string string) (n : NearEarthObject)
    (Hinit : NearEarthObject_init info = Ok n) :
  info !! "pdes" = Some (designation n)
  /\ approaches n = []
  /\ name n <> Some ""
  /\ (name n = None <-> info !! "name" = Some "")
  /\ (forall s, name n = Some s -> info !! "name" = Some s).
Proof.
  rewrite NearEarthObject_init_unfold in Hinit.
  destruct (info !! "pdes") as [pdes |]; [| done].
  destruct (info !! "name") as [nm |]; [| done].
  destruct (info !! "diameter") as [dm |]; [| done].
  destruct (if decide (len dm = 0) then Ok nan else float_of_str dm); [| done].
  destruct (info !! "pha"); [| done]. injection Hinit as <-. cbn.
  destruct (decide (len nm = 0)) as [H0 | H0].
  - apply len_zero in H0 as ->. repeat split; done.
  - assert (nm <> "") by (intros ->; by apply H0).
    repeat split; try done; try congruence.
Qed.

Lemma is_space_cases (c : ascii) :
  is_space c = true ->
  c ∈ ["009"; "010"; "011"; "012"; "013"; "028"; "029"; "030"; "031"; " "]%char.
Proof.
  destruct c as [[] [] [] [] [] [] [] []]; intros H;
    first [discriminate H | list_member].
Qed.

Lemma chars_blank (l : list ascii) :
  forallb is_space l = true -> map to_ascii (chars l) = l.
Proof.
  induction l as [| c l IH]; [done |].
  intros [Hc Hl]%andb_prop. apply is_space_cases in Hc.
  list_cases Hc;
    match goal with
    | |- map to_ascii (chars (?c0 :: _)) = _ =>
        transitivity (c0 :: map to_ascii (chars l)); [reflexivity | by rewrite (IH Hl)]
    end.
Qed.

Lemma lstrip_by_Forall {A : Type} (space : A -> bool) (P : A -> Prop) (l : list A) :
  Forall P l -> Forall P (lstrip_by space l).
Proof.
  induction 1 as [| c l Hc Hl IH]; simpl; [constructor |].
  destruct (space c); [done | by constructor].
Qed.

Lemma strip_by_Forall {A : Type} (space : A -> bool) (P : A -> Prop) (l : list A) :
  Forall P l -> Forall P (strip_by space l).
Proof.
  intros H. unfold strip_by.
  apply Forall_rev, lstrip_by_Forall, Forall_rev, lstrip_by_Forall, H.
Qed.

(** No text of blanks is a number. *)
Lemma read_blank (t : list ascii) :
  Forall (fun c => is_space c = true) t ->
  (let '(sign, body) := read_sign t in
   let word := string_of_list_ascii (map lower body) in
   if decide (word = "nan") then Ok S754_nan
   else if decide (word = "inf" \/ word = "infinity") then Ok (S754_infinity sign)
   else match read_floatnumber sign body with
        | Some f => Ok f
        | None => Raise ValueError
        end) = Raise ValueError.
Proof.
  intros H. destruct H as [| c t Hc _]; [reflexivity |].
  apply is_space_cases in Hc.
  list_cases Hc; cbn [read_sign];
    (destruct (decide _) as [Heq | _]; [discriminate Heq |]);
    (destruct (decide _) as [[Heq | Heq] | _]; [discriminate Heq | discriminate Heq |]);
    reflexivity.
Qed.

Lemma float_of_str_blank (s : string) :
  is_blank s = true -> float_of_str s = Raise ValueError.
Proof.
  unfold is_blank, float_of_str, float_text. intros H.
  rewrite (chars_blank _ H). apply read_blank, strip_by_Forall.
  apply Forall_forall. intros c Hc.
  rewrite forallb_forall in H. by apply H, list_elem_of_In.
Qed.

(** X8: a diameter field that is not empty but holds only white space is
    not read as "unknown": the constructor raises [ValueError]. *)
Theorem NearEarthObject_init_blank_diameter (info : gmap string string) (dm : string)
    (Hpdes : is_Some (info !! "pdes")) (Hname : is_Some (info !! "name"))
    (Hdm : info !! "diameter" = Some dm) (Hne : dm <> "")
    (Hblank : is_blank dm = true) :
  NearEarthObject_init info = Raise ValueError.
Proof.
  apply NearEarthObject_init_errors. repeat split; [done | done |].
  exists dm. repeat split; [done | done | by apply float_of_str_blank].
Qed.

(** ** Constructing a close approach *)

(** The constructor of a close approach succeeds exactly when the four
    fields [des], [cd], [dist] and [v_rel] are there, the date parser
    accepts [cd] with its surrounding white space removed, and [float]
    reads [dist] and [v_rel]; the record then holds these values and is
    not linked to any object. *)
Lemma CloseApproach_init_succeeds_iff (cd_to_datetime : string -> result datetime)
    (info : gmap string string) (a : CloseApproach) :
  CloseApproach_init cd_to_datetime info = Ok a
  <-> exists des cd dist v_rel t d v,
        info !! "des" = Some des /\ info !! "cd" = Some cd
        /\ info !! "dist" = Some dist /\ info !! "v_rel" = Some v_rel
        /\ cd_to_datetime (str_strip cd) = Ok t
        /\ float_of_str dist = Ok d /\ float_of_str v_rel = Ok v
        /\ a = {| _designation := des; time := t; distance := d; velocity := v;
                  neo := None |}.
Proof.
  unfold CloseApproach_init, getitem. split.
  - intros H.
    destruct (info !! "des") as [des |]; [| done].
    destruct (info !! "cd") as [cd |]; [| done]. rewrite !bind_Ok in H.
    destruct (cd_to_datetime (str_strip cd)) as [t |] eqn:Et; [| done].
    destruct (info !! "dist") as [dist |]; [| done]. rewrite !bind_Ok in H.
    destruct (float_of_str dist) as [d |] eqn:Ed; [| done].
    destruct (info !! "v_rel") as [v_rel |]; [| done]. rewrite !bind_Ok in H.
    destruct (float_of_str v_rel) as [v |] eqn:Ev; [| done].
    rewrite bind_Ok in H. injection H as <-.
    exists des, cd, dist, v_rel, t, d, v. by repeat split.
  - intros (des & cd & dist & v_rel & t & d & v & -> & -> & -> & -> & Ht & Hd & Hv & ->).
    cbn. rewrite Ht. cbn. rewrite Hd. cbn. rewrite Hv. reflexivity.
Qed.

(** X9: on a close approach as its constructor leaves it, a predicate on
    [time], [distance] or [velocity] finds its attribute, while one on
    [hazardous] or [diameter] raises [AttributeError], as does every call of
    a filter with one of these two names. *)
Theorem fresh_approach_unfilterable (cd_to_datetime : string -> result datetime)
    (info : gmap string string) (a : CloseApproach)
    (Hinit : CloseApproach_init cd_to_datetime info = Ok a) :
  GetAttribute_get a "time" = Ok (PyDate (datetime_date (time a)))
  /\ GetAttribute_get a "distance" = Ok (PyFloat (distance a))
  /\ GetAttribute_get a "velocity" = Ok (PyFloat (velocity a))
  /\ forall attr_interest o v attr,
       attr_interest ∈ ["hazardous"; "diameter"] ->
       GetAttribute_get a attr_interest = Raise AttributeError
       /\ call (GetAttribute_init o v attr) a attr_interest = Raise AttributeError.
Proof.
  apply CloseApproach_init_unlinked in Hinit.
  repeat split; try reflexivity.
  - by apply unlinked_get.
  - rewrite call_GetAttribute. by rewrite unlinked_get.
Qed.

(** ** Serializing a close approach *)

Lemma CloseApproach_serialize_linked (datetime_to_str : datetime -> string)
    (a : CloseApproach) (n : NearEarthObject) :
  neo a = Some n ->
  CloseApproach_serialize datetime_to_str a
  = Ok [("datetime_utc", PyV (PyStr (datetime_to_str (time a))));
        ("distance_au", PyV (PyFloat (distance a)));
        ("velocity_km_s", PyV (PyFloat (velocity a)));
        ("neo", PyD [("designation", PyStr (designation n));
                     ("potentially_hazardous", PyBool (hazardous n));
                     ("diameter_km", PyFloat (diameter n));
                     ("name", PyStr (default "" (name n)))])].
Proof.
  intros Hn. unfold CloseApproach_serialize, neo_object. rewrite Hn.
  unfold getattr. destruct (name n); reflexivity.
Qed.

Lemma CloseApproach_serialize_unlinked (datetime_to_str : datetime -> string)
    (a : CloseApproach) :
  neo a = None -> CloseApproach_serialize datetime_to_str a = Raise AttributeError.
Proof. intros Hn. unfold CloseApproach_serialize, neo_object. by rewrite Hn. Qed.

(** X10: serializing a close approach fails exactly when it is not linked,
    and then with [AttributeError]; for a linked one it gives the keys
    [datetime_utc], [distance_au], [velocity_km_s] and [neo], the last
    holding a dictionary with the keys [designation],
    [potentially_hazardous], [diameter_km] and [name], whose name is a
    string, empty for an unnamed object, and never [None]. *)
Theorem CloseApproach_serialize_keys (datetime_to_str : datetime -> string)
    (a : CloseApproach) :
  (forall e, CloseApproach_serialize datetime_to_str a = Raise e
             <-> neo a = None /\ e = AttributeError)
  /\ (forall n, neo a = Some n ->
        exists d nd,
          CloseApproach_serialize datetime_to_str a = Ok d
          /\ map fst d = ["datetime_utc"; "distance_au"; "velocity_km_s"; "neo"]
          /\ dict_get d "neo" = Some (PyD nd)
          /\ map fst nd = ["designation"; "potentially_hazardous"; "diameter_km"; "name"]
          /\ dict_get nd "name" = Some (PyStr (default "" (name n)))
          /\ dict_get nd "name" <> Some PyNone).
Proof.
  split.
  - intros e. destruct (neo a) as [n |] eqn:Hn.
    + rewrite (CloseApproach_serialize_linked _ a n Hn). split; [done | by intros [? _]].
    + rewrite (CloseApproach_serialize_unlinked _ a Hn). split.
      * by intros [= <-].
      * by intros [_ ->].
  - intros n Hn. rewrite (CloseApproach_serialize_linked _ a n Hn).
    eexists _, _. split; [reflexivity |]. repeat split; done.
Qed.

(** X11: the dictionary nested under [neo] and the dictionary that the
    object's own serializer computes have the same keys and agree on
    [designation] and [diameter_km]; they differ on [potentially_hazardous],
    a boolean in the first and its text in the second, and on the name of
    an unnamed object, the empty string in the first and [None] in the
    second. *)
Theorem serializers_compared (datetime_to_str : datetime -> string)
    (a : CloseApproach) (n : NearEarthObject) (Hlinked : neo a = Some n) :
  exists d nd res,
    CloseApproach_serialize datetime_to_str a = Ok d
    /\ dict_get d "neo" = Some (PyD nd)
    /\ f_locals (NearEarthObject_serialize_frame n) = [("res", res)]
    /\ map fst nd ≡ₚ map fst res
    /\ dict_get nd "designation" = dict_get res "designation"
    /\ dict_get nd "diameter_km" = dict_get res "diameter_km"
    /\ dict_get nd "potentially_hazardous" = Some (PyBool (hazardous n))
    /\ dict_get res "potentially_hazardous" = Some (PyStr (str_of_bool (hazardous n)))
    /\ (dict_get nd "name" = dict_get res "name" <-> name n <> None).
Proof.
  rewrite (CloseApproach_serialize_linked _ a n Hlinked).
  eexists _, _, _. split; [reflexivity |]. split; [reflexivity |].
  split; [reflexivity |]. split.
  { simpl. do 1 f_equiv. rewrite (Permutation_swap "potentially_hazardous" "diameter_km").
    rewrite (Permutation_swap "potentially_hazardous" "name").
    f_equiv. apply Permutation_swap. }
  repeat split; try reflexivity; simpl.
  - destruct (name n); simpl; [done | discriminate].
  - intros H. by destruct (name n).
Qed.

(** ** Writing results *)

(** X12: the record written for a linked close approach has one cell under
    each field name of the header, in the header's order, whatever [str]
    makes of a value: time, distance and velocity of the approach, then
    designation, name (the empty string for an unnamed object), diameter
    and hazard flag of its object; no key trips the writer's check. *)
Theorem csv_record_cells (datetime_to_str : datetime -> string) (str : pyobj -> string)
    (a : CloseApproach) (n : NearEarthObject) (Hlinked : neo a = Some n) :
  exists record,
    csv_record datetime_to_str str a = Ok record
    /\ zip fieldnames record
       = [("datetime_utc", str (PyV (PyStr (datetime_to_str (time a)))));
          ("distance_au", str (PyV (PyFloat (distance a))));
          ("velocity_km_s", str (PyV (PyFloat (velocity a))));
          ("designation", str (PyV (PyStr (designation n))));
          ("name", str (PyV (PyStr (default "" (name n)))));
          ("diameter_km", str (PyV (PyFloat (diameter n))));
          ("potentially_hazardous", str (PyV (PyBool (hazardous n))))]
    /\ length record = length fieldnames.
Proof.
  unfold csv_record. rewrite (CloseApproach_serialize_linked _ a n Hlinked).
  eexists. split; [reflexivity |]. split; reflexivity.
Qed.

Lemma csv_record_unlinked (datetime_to_str : datetime -> string) (str : pyobj -> string)
    (a : CloseApproach) :
  neo a = None -> csv_record datetime_to_str str a = Raise AttributeError.
Proof.
  intros Hn. unfold csv_record.
  by rewrite (CloseApproach_serialize_unlinked _ a Hn).
Qed.

Lemma csv_record_Ok (datetime_to_str : datetime -> string) (str : pyobj -> string)
    (a : CloseApproach) :
  linked a -> exists record, csv_record datetime_to_str str a = Ok record
                             /\ length record = length fieldnames.
Proof.
  intros [n Hn]. unfold csv_record.
  rewrite (CloseApproach_serialize_linked _ a n Hn).
  eexists. split; reflexivity.
Qed.

Lemma write_records_linked (datetime_to_str : datetime -> string) (str : pyobj -> string)
    (items : list CloseApproach) (written : list (list string)) :
  Forall linked items ->
  exists records,
    write_records datetime_to_str str items written = (written ++ records, Ok tt)
    /\ Forall2 (fun a r => csv_record datetime_to_str str a = Ok r) items records.
Proof.
  intros H. revert written. induction H as [| a items Ha _ IH]; intros written; simpl.
  - exists []. by rewrite app_nil_r.
  - destruct (csv_record_Ok datetime_to_str str a Ha) as (r & Hr & _). rewrite Hr.
    destruct (IH (written ++ [r])) as (records & Hw & HF).
    exists (r :: records). rewrite Hw, <- app_assoc. split; [done | by constructor].
Qed.

Lemma write_records_stops (datetime_to_str : datetime -> string) (str : pyobj -> string)
    (before after : list CloseApproach) (a : CloseApproach) (written : list (list string)) :
  Forall linked before -> neo a = None ->
  exists records,
    write_records datetime_to_str str (before ++ a :: after) written
    = (written ++ records, Raise AttributeError)
    /\ Forall2 (fun a r => csv_record datetime_to_str str a = Ok r) before records.
Proof.
  intros H Hn. revert written. induction H as [| b before Hb _ IH]; intros written; simpl.
  - exists []. rewrite (csv_record_unlinked _ _ a Hn), app_nil_r. by split.
  - destruct (csv_record_Ok datetime_to_str str b Hb) as (r & Hr & _). rewrite Hr.
    destruct (IH (written ++ [r])) as (records & Hw & HF).
    exists (r :: records). rewrite Hw, <- app_assoc. split; [done | by constructor].
Qed.

(** X13: given linked close approaches, as a list or as an iterator,
    [write_to_csv] ends normally, and the file holds the header followed by
    one record per approach, in their order, each as wide as the header. *)
Theorem write_to_csv_linked (datetime_to_str : datetime -> string) (str : pyobj -> string)
    (items : list CloseApproach) (Hlinked : Forall linked items) :
  exists records,
    write_to_csv datetime_to_str str (ResultsList items) = (fieldnames :: records, Ok tt)
    /\ write_to_csv datetime_to_str str (ResultsIterator items)
       = (fieldnames :: records, Ok tt)
    /\ Forall2 (fun a r => csv_record datetime_to_str str a = Ok r) items records
    /\ length records = length items
    /\ Forall (fun r => length r = length fieldnames) records.
Proof.
  destruct (write_records_linked datetime_to_str str items [fieldnames] Hlinked)
    as (records & Hw & HF).
  exists records. unfold write_to_csv. simpl iterate. cbv iota. rewrite Hw.
  repeat split; try done.
  - symmetry. by eapply Forall2_length.
  - clear Hw. induction HF as [| a r items records Hr _ IH]; [constructor |].
    apply Forall_cons in Hlinked as [Ha Hl]. constructor; [| by apply IH].
    destruct (csv_record_Ok datetime_to_str str a Ha) as (r' & Hr' & Hlen). congruence.
Qed.

(** X14: at the first close approach that is not linked, [write_to_csv]
    raises [AttributeError]; by then the file has received the header and
    the records of all approaches before that one, and nothing after. *)
Theorem write_to_csv_stops (datetime_to_str : datetime -> string) (str : pyobj -> string)
    (before after : list CloseApproach) (a : CloseApproach)
    (Hbefore : Forall linked before) (Hunlinked : neo a = None) :
  exists records,
    write_to_csv datetime_to_str str (ResultsList (before ++ a :: after))
    = (fieldnames :: records, Raise AttributeError)
    /\ Forall2 (fun a r => csv_record datetime_to_str str a = Ok r) before records
    /\ length records = length before.
Proof.
  destruct (write_records_stops datetime_to_str str before after a [fieldnames]
              Hbefore Hunlinked) as (records & Hw & HF).
  exists records. unfold write_to_csv. simpl iterate. cbv iota. rewrite Hw.
  repeat split; try done. symmetry. by eapply Forall2_length.
Qed.

Lemma serialize_all_linked (datetime_to_str : datetime -> string)
    (items : list CloseApproach) :
  Forall linked items ->
  exists ds, serialize_all datetime_to_str items = Ok ds
    /\ Forall2 (fun a d => CloseApproach_serialize datetime_to_str a = Ok d) items ds.
Proof.
  induction 1 as [| a items [n Hn] _ (ds & Hds & HF)]; simpl.
  - by exists [].
  - rewrite (CloseApproach_serialize_linked _ a n Hn), bind_Ok, Hds, bind_Ok.
    eexists. split; [done |]. constructor; [| done].
    by rewrite (CloseApproach_serialize_linked _ a n Hn).
Qed.

(** X15: [write_to_json] hands [json.dump] the empty list for [None] and
    for an empty list, and for a list of linked close approaches the list
    of their dictionaries, one per approach and in their order. *)
Theorem write_to_json_list (datetime_to_str : datetime -> string)
    (items : list CloseApproach) (Hlinked : Forall linked items) :
  write_to_json datetime_to_str ResultsNone = Ok []
  /\ write_to_json datetime_to_str (ResultsList []) = Ok []
  /\ exists ds,
       write_to_json datetime_to_str (ResultsList items) = Ok ds
       /\ length ds = length items
       /\ Forall2 (fun a d => CloseApproach_serialize datetime_to_str a = Ok d) items ds.
Proof.
  split; [reflexivity |]. split; [reflexivity |].
  destruct (serialize_all_linked datetime_to_str items Hlinked) as (ds & Hds & HF).
  exists ds. split; [| split; [symmetry; by eapply Forall2_length | done]].
  destruct items as [| a items'].
  - simpl in Hds. by injection Hds as <-.
  - unfold write_to_json, results_len. rewrite bind_Ok.
    destruct (decide (Z.of_nat (length (a :: items')) = 0)) as [H0 | _];
      [simpl in H0; lia |].
    rewrite bind_Ok. exact Hds.
Qed.

(** X16: what [limit] returns is an iterator, and [write_to_json] asks for
    its length: handed the result of [limit], whatever the sequence and the
    bound, it raises [TypeError] before serializing anything, while
    [write_to_csv] writes the linked approaches of the same iterator. *)
Theorem write_to_json_rejects_limit (datetime_to_str : datetime -> string)
    (str : pyobj -> string) (iterator : list CloseApproach) (n : option Z)
    (results : results_arg) (Hlimit : limit_object iterator n = Ok results) :
  write_to_json datetime_to_str results = Raise TypeError
  /\ (Forall linked iterator ->
      exists records,
        write_to_csv datetime_to_str str results = (fieldnames :: records, Ok tt)
        /\ limit (map (csv_record datetime_to_str str) iterator) n = Ok (map Ok records)).
Proof.
  unfold limit_object in Hlimit. apply bind_inv in Hlimit as (items & Hitems & [= <-]).
  split; [reflexivity |]. intros Hl.
  assert (Hpre : items `prefix_of` iterator).
  { unfold limit, islice in Hitems.
    destruct (if decide (n = Some 0) then None else n) as [k |]; [| by injection Hitems as <-].
    destruct ((k <? 0) || (sys_maxsize <? k)); [done |].
    injection Hitems as <-. apply prefix_take. }
  assert (Hli : Forall linked items).
  { destruct Hpre as [rest ->]. by apply Forall_app in Hl as [? _]. }
  destruct (write_records_linked datetime_to_str str items [fieldnames] Hli)
    as (records & Hw & HF).
  exists records. split; [unfold write_to_csv; simpl iterate; cbv iota; exact Hw |].
  assert (Hmap : map (csv_record datetime_to_str str) items = map Ok records).
  { clear -HF. induction HF as [| a r items records Hr _ IH]; simpl; [done |].
    by rewrite Hr, IH. }
  rewrite <- Hmap. clear -Hitems. unfold limit, islice in *.
  destruct (if decide (n = Some 0) then None else n) as [k |].
  - destruct ((k <? 0) || (sys_maxsize <? k)); [done |]. injection Hitems as <-.
    change (map ?f ?l) with (f <$> l). by rewrite fmap_take.
  - by injection Hitems as <-.
Qed.

(** ** Loading *)

Lemma list_index_raises (l : list string) (x : string) (e : exn) :
  list_index l x = Raise e -> e = ValueError /\ x ∉ l.
Proof.
  revert e. induction l as [| y l IH]; intros e; simpl.
  - intros [= <-]. split; [done | apply not_elem_of_nil].
  - destruct (decide (y = x)) as [-> | Hne]; [done |].
    destruct (list_index l x) as [i | e1] eqn:Ei; [done |].
    intros [= <-]. destruct (IH e1 eq_refl) as [-> Hnin].
    split; [done |]. intros [? | ?]%elem_of_cons; [by subst | done].
Qed.

Lemma list_index_missing (l : list string) (x : string) :
  x ∉ l -> list_index l x = Raise ValueError.
Proof.
  induction l as [| y l IH]; simpl; [done |].
  intros Hnin. apply not_elem_of_cons in Hnin as [Hne Hnin].
  destruct (decide (y = x)); [by subst |]. by rewrite (IH Hnin).
Qed.

Lemma indices_missing (fields wanted : list string) (field : string) :
  field ∈ wanted -> field ∉ fields -> indices fields wanted = Raise ValueError.
Proof.
  intros Hin Hnin. induction wanted as [| w wanted IH]; [by apply elem_of_nil in Hin |].
  simpl. destruct (list_index fields w) as [i | e] eqn:Ei.
  - rewrite bind_Ok. apply elem_of_cons in Hin as [-> | Hin].
    + by rewrite (list_index_missing fields w Hnin) in Ei.
    + by rewrite (IH Hin).
  - by apply list_index_raises in Ei as [-> _].
Qed.

(** X17: when the file's [fields] lack one of [des], [cd], [dist] and
    [v_rel], [load_approaches] raises [ValueError], whatever the rows are
    and also when there is none. *)
Theorem load_approaches_missing_field (cd_to_datetime : string -> result datetime)
    (content : cad_content) (field : string)
    (Hwanted : field ∈ fields_wanted) (Hmissing : field ∉ content_fields content) :
  load_approaches cd_to_datetime content = LoadFailed (PyExn ValueError).
Proof.
  unfold load_approaches.
  by rewrite (indices_missing _ _ field Hwanted Hmissing).
Qed.

Lemma loaded_bind_inv {A B : Type} (m : loaded A) (k : A -> loaded B) (b : B) :
  (m ≫= k) = Loaded b -> exists a, m = Loaded a /\ k a = Loaded b.
Proof. destruct m as [a | e]; [eauto | discriminate]. Qed.

Lemma of_result_Loaded {A : Type} (r : result A) (a : A) :
  of_result r = Loaded a -> r = Ok a.
Proof. destruct r; [by intros [= ->] | discriminate]. Qed.

Lemma indices_wanted (fields : list string) (idx : list nat) :
  indices fields fields_wanted = Ok idx ->
  exists i1 i2 i3 i4,
    idx = [i1; i2; i3; i4]
    /\ list_index fields "des" = Ok i1 /\ list_index fields "cd" = Ok i2
    /\ list_index fields "dist" = Ok i3 /\ list_index fields "v_rel" = Ok i4.
Proof.
  unfold fields_wanted. simpl. intros H.
  apply bind_inv in H as (i1 & H1 & H). apply bind_inv in H as (r1 & H & [= <-]).
  apply bind_inv in H as (i2 & H2 & H). apply bind_inv in H as (r2 & H & [= <-]).
  apply bind_inv in H as (i3 & H3 & H). apply bind_inv in H as (r3 & H & [= <-]).
  apply bind_inv in H as (i4 & H4 & H). injection H as <-.
  by exists i1, i2, i3, i4.
Qed.

Lemma cells_four (itm : list string) (i1 i2 i3 i4 : nat) (info : list string) :
  cells itm [i1; i2; i3; i4] = Loaded info ->
  exists c1 c2 c3 c4,
    info = [c1; c2; c3; c4]
    /\ itm !! i1 = Some c1 /\ itm !! i2 = Some c2
    /\ itm !! i3 = Some c3 /\ itm !! i4 = Some c4.
Proof.
  simpl. unfold list_getitem. intros H.
  destruct (itm !! i1) as [c1 |]; [| done].
  destruct (itm !! i2) as [c2 |]; [| done].
  destruct (itm !! i3) as [c3 |]; [| done].
  destruct (itm !! i4) as [c4 |]; [| done].
  injection H as <-. by exists c1, c2, c3, c4.
Qed.

(** X18: when [load_approaches] succeeds it returns one close approach per
    row, in the order of the rows; each is unlinked and is built from the
    cells of its row that stand under the first columns named [des], [cd],
    [dist] and [v_rel], wherever these columns are and whatever other
    columns there are. *)
Theorem load_approaches_rows (cd_to_datetime : string -> result datetime)
    (content : cad_content) (res : list CloseApproach)
    (Hload : load_approaches cd_to_datetime content = Loaded res) :
  length res = length (content_data content)
  /\ Forall2
       (fun itm a =>
          exists des cd dist v_rel,
            cell_under (content_fields content) itm "des" = Some des
            /\ cell_under (content_fields content) itm "cd" = Some cd
            /\ cell_under (content_fields content) itm "dist" = Some dist
            /\ cell_under (content_fields content) itm "v_rel" = Some v_rel
            /\ _designation a = des
            /\ cd_to_datetime (str_strip cd) = Ok (time a)
            /\ float_of_str dist = Ok (distance a)
            /\ float_of_str v_rel = Ok (velocity a)
            /\ neo a = None)
       (content_data content) res.
Proof.
  unfold load_approaches in Hload.
  apply loaded_bind_inv in Hload as (idx & Hidx & Hrows).
  apply of_result_Loaded, indices_wanted in Hidx
    as (i1 & i2 & i3 & i4 & -> & H1 & H2 & H3 & H4).
  assert (HF : Forall2
       (fun itm a =>
          exists des cd dist v_rel,
            cell_under (content_fields content) itm "des" = Some des
            /\ cell_under (content_fields content) itm "cd" = Some cd
            /\ cell_under (content_fields content) itm "dist" = Some dist
            /\ cell_under (content_fields content) itm "v_rel" = Some v_rel
            /\ _designation a = des
            /\ cd_to_datetime (str_strip cd) = Ok (time a)
            /\ float_of_str dist = Ok (distance a)
            /\ float_of_str v_rel = Ok (velocity a)
            /\ neo a = None)
       (content_data content) res).
  { revert res Hrows. induction (content_data content) as [| itm data IH];
      intros res Hrows; simpl in Hrows.
    - injection Hrows as <-. constructor.
    - apply loaded_bind_inv in Hrows as (info & Hinfo & Hrows).
      apply loaded_bind_inv in Hrows as (obj & Hobj & Hrows).
      apply loaded_bind_inv in Hrows as (rest & Hrest & [= <-]).
      constructor; [| by apply IH].
      apply cells_four in Hinfo as (c1 & c2 & c3 & c4 & -> & Hc1 & Hc2 & Hc3 & Hc4).
      apply of_result_Loaded, CloseApproach_init_succeeds_iff in Hobj
        as (des & cd & dist & v_rel & t & d & v & Hdes & Hcd & Hdist & Hv & Ht & Hd & Hvv & ->).
      injection Hdes as <-. injection Hcd as <-. injection Hdist as <-. injection Hv as <-.
      exists c1, c2, c3, c4. unfold cell_under. rewrite H1, H2, H3, H4.
      by repeat split. }
  split; [symmetry; by eapply Forall2_length | done].
Qed.


(** ** What the predicates of the builder decide *)

Lemma date_compare_refl (d : date) : date_compare d d = Eq.
Proof. unfold date_compare. by rewrite !Z.compare_refl. Qed.

Lemma call_time (o : binop) (v : pyval) (attr : string) (a : CloseApproach) :
  call (GetAttribute_init o v attr) a "time" = o (PyDate (datetime_date (time a))) v.
Proof. reflexivity. Qed.

(** X20: the predicates built for [date], [start_date] and [end_date] look
    at the calendar day of the approach only, need no linked object, and
    their bounds are inclusive: an approach passes all three for its own
    day, at whatever time of that day it occurs. *)
Theorem date_filters_by_day (d : date) (a : CloseApproach) :
  create_filters (PyDate d) PyNone PyNone PyNone PyNone PyNone PyNone PyNone PyNone PyNone
  = Ok ([GetAttribute_init operator_eq (PyDate d) "time"], ["time"])
  /\ create_filters PyNone (PyDate d) PyNone PyNone PyNone PyNone PyNone PyNone PyNone PyNone
     = Ok ([GetAttribute_init operator_ge (PyDate d) "time"], ["time"])
  /\ create_filters PyNone PyNone (PyDate d) PyNone PyNone PyNone PyNone PyNone PyNone PyNone
     = Ok ([GetAttribute_init operator_le (PyDate d) "time"], ["time"])
  /\ call (GetAttribute_init operator_eq (PyDate d) "time") a "time"
     = Ok (PyBool (bool_decide (datetime_date (time a) = d)))
  /\ call (GetAttribute_init operator_ge (PyDate d) "time") a "time"
     = Ok (PyBool (match date_compare (datetime_date (time a)) d with
                   | Lt => false | _ => true end))
  /\ call (GetAttribute_init operator_le (PyDate d) "time") a "time"
     = Ok (PyBool (match date_compare (datetime_date (time a)) d with
                   | Gt => false | _ => true end))
  /\ (datetime_date (time a) = d ->
      forall o, o ∈ [operator_eq; operator_ge; operator_le] ->
                call (GetAttribute_init o (PyDate d) "time") a "time" = Ok (PyBool true))
  /\ (forall a' o v attr,
        datetime_date (time a') = datetime_date (time a) ->
        call (GetAttribute_init o v attr) a' "time"
        = call (GetAttribute_init o v attr) a "time").
Proof.
  do 3 (split; [reflexivity |]).
  rewrite !call_time. split; [reflexivity |].
  split; [unfold operator_ge; simpl; by destruct (date_compare _ _) |].
  split; [unfold operator_le; simpl; by destruct (date_compare _ _) |].
  split.
  - intros <- o Ho. rewrite call_time. list_cases Ho.
    + unfold operator_eq; simpl. by rewrite bool_decide_eq_true_2.
    + unfold operator_ge; simpl. by rewrite date_compare_refl.
    + unfold operator_le; simpl. by rewrite date_compare_refl.
  - intros a' o v attr Heq. by rewrite !call_time, Heq.
Qed.

(** X21: the predicate built for [hazardous] holds on a linked record
    exactly when the object's flag equals the value asked for, so
    [hazardous=False] selects the objects that are not hazardous. *)
Theorem hazardous_filter (b : bool) (a : CloseApproach) (n : NearEarthObject)
    (Hlinked : neo a = Some n) :
  exists f,
    create_filters PyNone PyNone PyNone PyNone PyNone PyNone PyNone PyNone PyNone (PyBool b)
    = Ok ([f], ["hazardous"])
    /\ call f a "hazardous" = Ok (PyBool (bool_decide (hazardous n = b))).
Proof.
  eexists. split; [reflexivity |]. rewrite call_GetAttribute.
  rewrite (GetAttribute_get_linked a n "hazardous" Hlinked) by list_member.
  rewrite bind_Ok. change (spec_attribute a n "hazardous") with (PyBool (hazardous n)).
  by destruct (hazardous n), b.
Qed.

Lemma ge_nan (v : pyval) :
  is_Some (as_number v) -> operator_ge v (PyFloat nan) = Ok (PyBool false).
Proof.
  intros [x Hx]. destruct v as [| b | f | | | |]; try done.
  - by destruct b.
  - by destruct f.
Qed.

Lemma le_nan (v : pyval) :
  is_Some (as_number v) -> operator_le v (PyFloat nan) = Ok (PyBool false).
Proof.
  intros [x Hx]. destruct v as [| b | f | | | |]; try done.
  - by destruct b.
  - by destruct f.
Qed.

(** X22: a NaN never passes a range filter, on either side: the predicate
    built for a minimum or maximum of distance, velocity or diameter is
    false on a linked record when the value asked for is NaN, and when the
    record's attribute is NaN and the value is a number. *)
Theorem nan_range_filters (k : string) (v : pyval) (a : CloseApproach)
    (n : NearEarthObject) (Hlinked : neo a = Some n) (Hk : k ∈ range_options)
    (Hnan : v = PyFloat nan
            \/ (is_Some (as_number v) /\ spec_attribute a n (spec_target k) = PyFloat nan)) :
  call (GetAttribute_init (spec_operator k) v (spec_target k)) a (spec_target k)
  = Ok (PyBool false).
Proof.
  rewrite call_GetAttribute.
  assert (Ho : k ∈ option_names).
  { unfold range_options in Hk. list_cases Hk; unfold option_names; list_member. }
  rewrite (GetAttribute_get_linked a n _ Hlinked (spec_target_range k Ho)), bind_Ok.
  destruct Hnan as [-> | [Hv Ha]].
  - assert (Hnum : is_Some (as_number (spec_attribute a n (spec_target k)))).
    { unfold range_options in Hk. list_cases Hk; by eexists. }
    unfold range_options in Hk.
    list_cases Hk; first [by apply ge_nan | by apply le_nan].
  - rewrite Ha. unfold range_options in Hk.
    list_cases Hk; first [by apply nan_ge | by apply nan_le].
Qed.

(** ** Concrete instances of the further properties *)

Lemma limit_negative_witness :
  -1 < 0 /\ limit [1; 2; 3] (Some (-1)) = Raise ValueError.
Proof. split; [reflexivity | exact (limit_negative [1; 2; 3] (-1) eq_refl)]. Defined.

Lemma limit_limit_witness :
  0 < 3 <= sys_maxsize /\ 0 < 2 <= sys_maxsize
  /\ (out ← limit [1; 2; 3; 4; 5] (Some 3); limit out (Some 2)) = Ok [1; 2].
Proof.
  assert (H3 : 0 < 3 <= sys_maxsize) by (split; [reflexivity | discriminate]).
  assert (H2 : 0 < 2 <= sys_maxsize) by (split; [reflexivity | discriminate]).
  split; [exact H3 |]. split; [exact H2 |].
  destruct (limit_limit [1; 2; 3; 4; 5] 3 2 H3 H2) as [H _].
  rewrite H. reflexivity.
Defined.

Lemma limit_truncates_witness :
  (forall k, Some 2 = Some k -> 0 <= k <= sys_maxsize)
  /\ exists out, limit [1; 2; 3] (Some 2) = Ok out /\ out `prefix_of` [1; 2; 3].
Proof.
  assert (H : forall k, Some 2 = Some k -> 0 <= k <= sys_maxsize)
    by (intros k [= <-]; split; discriminate).
  split; [exact H |].
  destruct (limit_truncates [1; 2; 3] (Some 2) H) as (out & Hl & Hp & _).
  exists out. split; [exact Hl | exact Hp].
Defined.

Lemma NearEarthObject_call_other_fields_witness :
  (is_Some (eros_row !! "self") <-> is_Some (eros_row_wide !! "self"))
  /\ (forall k, k ∈ neo_fields -> eros_row !! k = eros_row_wide !! k)
  /\ NearEarthObject_call eros_row = NearEarthObject_call eros_row_wide.
Proof.
  assert (Hs : is_Some (eros_row !! "self") <-> is_Some (eros_row_wide !! "self")).
  { split; intros [x Hx]; discriminate Hx. }
  assert (H : forall k, k ∈ neo_fields -> eros_row !! k = eros_row_wide !! k).
  { intros k Hk. unfold neo_fields in Hk. list_cases Hk; reflexivity. }
  split; [exact Hs |]. split; [exact H |].
  exact (NearEarthObject_call_other_fields _ _ Hs H).
Defined.

Lemma NearEarthObject_init_name_witness :
  NearEarthObject_init eros_row = Ok eros
  /\ eros_row !! "pdes" = Some (designation eros) /\ name eros <> Some "".
Proof.
  split; [reflexivity |].
  destruct (NearEarthObject_init_name eros_row eros eq_refl) as (H1 & _ & H2 & _).
  split; [exact H1 | exact H2].
Defined.

Lemma NearEarthObject_init_blank_diameter_witness :
  is_Some (blank_row !! "pdes") /\ is_Some (blank_row !! "name")
  /\ blank_row !! "diameter" = Some "  " /\ "  " <> "" /\ is_blank "  " = true
  /\ NearEarthObject_init blank_row = Raise ValueError.
Proof.
  assert (H1 : is_Some (blank_row !! "pdes")) by (by eexists).
  assert (H2 : is_Some (blank_row !! "name")) by (by eexists).
  assert (H3 : "  " <> "") by discriminate.
  repeat (split; [first [assumption | reflexivity] |]).
  exact (NearEarthObject_init_blank_diameter blank_row "  " H1 H2 eq_refl H3 eq_refl).
Defined.

Lemma fresh_approach_unfilterable_witness :
  CloseApproach_init sample_cd_to_datetime eros_cad_row = Ok eros_unlinked
  /\ GetAttribute_get eros_unlinked "distance" = Ok (PyFloat (distance eros_unlinked))
  /\ GetAttribute_get eros_unlinked "hazardous" = Raise AttributeError.
Proof.
  split; [reflexivity |].
  destruct (fresh_approach_unfilterable sample_cd_to_datetime eros_cad_row
              eros_unlinked eq_refl) as (_ & Hd & _ & H).
  split; [exact Hd |].
  apply (H "hazardous" operator_eq PyNone ""). apply list_elem_of_here.
Defined.

Lemma serializers_compared_witness :
  neo eros_approach = Some eros
  /\ exists d nd,
       CloseApproach_serialize sample_datetime_to_str eros_approach = Ok d
       /\ dict_get d "neo" = Some (PyD nd)
       /\ dict_get nd "potentially_hazardous" = Some (PyBool false).
Proof.
  split; [reflexivity |].
  destruct (serializers_compared sample_datetime_to_str eros_approach eros eq_refl)
    as (d & nd & res & Hd & Hnd & _ & _ & _ & _ & Hh & _).
  exists d, nd. repeat (split; [assumption |]). exact Hh.
Defined.

Lemma csv_record_cells_witness :
  neo eros_approach = Some eros
  /\ exists record,
       csv_record sample_datetime_to_str sample_str eros_approach = Ok record
       /\ length record = length fieldnames.
Proof.
  split; [reflexivity |].
  destruct (csv_record_cells sample_datetime_to_str sample_str eros_approach eros eq_refl)
    as (record & Hr & _ & Hl).
  exists record. split; [exact Hr | exact Hl].
Defined.

Lemma write_to_csv_linked_witness :
  Forall linked [eros_approach]
  /\ exists records,
       write_to_csv sample_datetime_to_str sample_str (ResultsList [eros_approach])
       = (fieldnames :: records, Ok tt)
       /\ length records = 1%nat.
Proof.
  assert (H : Forall linked [eros_approach]).
  { constructor; [by eexists | constructor]. }
  split; [exact H |].
  destruct (write_to_csv_linked sample_datetime_to_str sample_str [eros_approach] H)
    as (records & Hw & _ & _ & Hl & _).
  exists records. split; [exact Hw | exact Hl].
Defined.

Lemma write_to_csv_stops_witness :
  Forall linked [eros_approach] /\ neo eros_unlinked = None
  /\ exists records,
       write_to_csv sample_datetime_to_str sample_str
         (ResultsList ([eros_approach] ++ eros_unlinked :: [eros_approach]))
       = (fieldnames :: records, Raise AttributeError)
       /\ length records = 1%nat.
Proof.
  assert (H : Forall linked [eros_approach]).
  { constructor; [by eexists | constructor]. }
  split; [exact H |]. split; [reflexivity |].
  destruct (write_to_csv_stops sample_datetime_to_str sample_str [eros_approach]
              [eros_approach] eros_unlinked H eq_refl) as (records & Hw & _ & Hl).
  exists records. split; [exact Hw | exact Hl].
Defined.

Lemma write_to_json_list_witness :
  Forall linked [eros_approach]
  /\ exists ds,
       write_to_json sample_datetime_to_str (ResultsList [eros_approach]) = Ok ds
       /\ length ds = 1%nat.
Proof.
  assert (H : Forall linked [eros_approach]).
  { constructor; [by eexists | constructor]. }
  split; [exact H |].
  destruct (write_to_json_list sample_datetime_to_str [eros_approach] H)
    as (_ & _ & ds & Hw & Hl & _).
  exists ds. split; [exact Hw | exact Hl].
Defined.

Lemma write_to_json_rejects_limit_witness :
  limit_object ten_approaches (Some 3) = Ok (ResultsIterator (take 3 ten_approaches))
  /\ write_to_json sample_datetime_to_str (ResultsIterator (take 3 ten_approaches))
     = Raise TypeError.
Proof.
  split; [reflexivity |].
  exact (proj1 (write_to_json_rejects_limit sample_datetime_to_str sample_str
                  ten_approaches (Some 3) _ eq_refl)).
Defined.

Lemma load_approaches_missing_field_witness :
  ("v_rel" ∈ fields_wanted) /\ ("v_rel" ∉ content_fields incomplete_content)
  /\ load_approaches sample_cd_to_datetime incomplete_content
     = LoadFailed (PyExn ValueError).
Proof.
  assert (H1 : "v_rel" ∈ fields_wanted) by (unfold fields_wanted; list_member).
  assert (H2 : "v_rel" ∉ content_fields incomplete_content).
  { intros H. simpl in H.
    repeat (apply elem_of_cons in H as [H | H]; [discriminate H |]).
    by apply elem_of_nil in H. }
  split; [exact H1 |]. split; [exact H2 |].
  exact (load_approaches_missing_field sample_cd_to_datetime incomplete_content
           "v_rel" H1 H2).
Defined.

Lemma load_approaches_rows_witness :
  load_approaches sample_cd_to_datetime sample_content = Loaded [eros_unlinked]
  /\ length [eros_unlinked] = length (content_data sample_content).
Proof.
  split; [reflexivity |].
  exact (proj1 (load_approaches_rows sample_cd_to_datetime sample_content
                  [eros_unlinked] eq_refl)).
Defined.

Lemma hazardous_filter_witness :
  neo eros_approach = Some eros
  /\ exists f,
       create_filters PyNone PyNone PyNone PyNone PyNone PyNone PyNone PyNone PyNone
         (PyBool false) = Ok ([f], ["hazardous"])
       /\ call f eros_approach "hazardous" = Ok (PyBool true).
Proof.
  split; [reflexivity |].
  destruct (hazardous_filter false eros_approach eros eq_refl) as (f & Hc & Hf).
  exists f. split; [exact Hc | exact Hf].
Defined.

Lemma nan_range_filters_witness :
  neo unknown_approach = Some unknown_neo
  /\ ("diameter_min" ∈ range_options)
  /\ (is_Some (as_number (PyFloat f64_zero))
      /\ spec_attribute unknown_approach unknown_neo (spec_target "diameter_min")
         = PyFloat nan)
  /\ call (GetAttribute_init (spec_operator "diameter_min") (PyFloat f64_zero)
             (spec_target "diameter_min")) unknown_approach (spec_target "diameter_min")
     = Ok (PyBool false).
Proof.
  assert (Hk : "diameter_min" ∈ range_options) by (unfold range_options; list_member).
  assert (Hn : is_Some (as_number (PyFloat f64_zero))
               /\ spec_attribute unknown_approach unknown_neo (spec_target "diameter_min")
                  = PyFloat nan) by (split; [by eexists | reflexivity]).
  split; [reflexivity |]. split; [exact Hk |]. split; [exact Hn |].
  exact (nan_range_filters "diameter_min" (PyFloat f64_zero) unknown_approach unknown_neo
           eq_refl Hk (or_intror Hn)).
Defined.
